(** * resultant.js: the outcome algebra of [src/rustify/index.ts] and the
    tuple bridge of [src/goify/index.ts], as a shallow embedding.

    Values are untyped, as they are at run time: the TypeScript parameters
    [T], [E], [U] are erased and every slot holds a [JsVal].  Code that can
    throw lives in the [Completion] monad; a promise is represented by the
    way it eventually settles; a wrapper that is handed back either at
    once or inside a promise is a [MaybeAsync]. *)

From Stdlib Require Import ZArith List String Ascii Bool Lia.
From Stdlib Require Import DecimalString.
Import ListNotations.
Local Open Scope string_scope.
Local Open Scope Z_scope.
Set Warnings "-register-all".

(** ** Run-time values *)

(** The constructor that built an error object: it decides the [name] that
    [Error.prototype.toString] prints.  Both are [instanceof Error]. *)
Inductive ErrorCtor := ErrorC | TypeErrorC.

(** What an object's prototype chain ends in: an ordinary object inherits
    [Object.prototype]; [Object.create(null)] inherits nothing. *)
Inductive Proto := ObjectPrototype | NullPrototype.

(** How a promise ends: fulfilled with a value, rejected with a reason, or
    pending for ever. *)
Inductive Settlement (A E : Type) :=
| Fulfilled (a : A)
| Rejected (reason : E)
| NeverSettles.
Arguments Fulfilled {A E} a.
Arguments Rejected {A E} reason.
Arguments NeverSettles {A E}.

(** The fragment of JavaScript values that is modelled.  Numbers are the
    integers that a double holds exactly; objects carry their own enumerable data
    properties in enumeration order; an error object carries the string
    its constructor stored as [message]; a promise carries its
    settlement.  Functions, arrays, accessors, proxies and cyclic object
    graphs are outside the fragment. *)
Inductive JsVal :=
| VUndefined
| VNull
| VBool (b : bool)
| VNum (n : Z)
| VBigInt (n : Z)
| VStr (s : string)
| VSymbol (description : string)
| VError (ctor : ErrorCtor) (message : string)
| VObject (proto : Proto) (props : list (string * JsVal))
| VPromise (p : Settlement JsVal JsVal).

(** ** Completions: return or throw *)

Inductive Completion (A : Type) :=
| Return (a : A)
| Throw (e : JsVal).
Arguments Return {A} a.
Arguments Throw {A} e.

Definition bind {A B} (c : Completion A) (k : A -> Completion B) : Completion B :=
  match c with
  | Return a => k a
  | Throw e => Throw e
  end.

(** [try { body } catch (err) { handler(err) }] *)
Definition try_catch {A} (body : Completion A) (handler : JsVal -> Completion A)
  : Completion A :=
  match body with
  | Return a => Return a
  | Throw e => handler e
  end.

Notation "x <- c ;; k" := (bind c (fun x => k))
  (at level 61, c at next level, right associativity).

(** [new Error(s)] and the engine's [TypeError]s. *)
Definition newError (s : string) : JsVal := VError ErrorC s.
Definition newTypeError (s : string) : JsVal := VError TypeErrorC s.

(** ** Platform conversions *)

Definition string_of_Z (n : Z) : string :=
  NilEmpty.string_of_int (Z.to_int n).

Definition ctor_name (c : ErrorCtor) : string :=
  match c with ErrorC => "Error" | TypeErrorC => "TypeError" end.

Fixpoint lookup (k : string) (props : list (string * JsVal)) : option JsVal :=
  match props with
  | [] => None
  | (k', v) :: rest => if String.eqb k k' then Some v else lookup k rest
  end.

(** ['message' in o] for an object of the fragment: an error object has
    the key, another object has it when it is an own property. *)
Definition in_message (v : JsVal) : bool :=
  match v with
  | VError _ _ => true
  | VObject _ props =>
      match lookup "message" props with Some _ => true | None => false end
  | _ => false
  end.

(** [o.message] *)
Definition get_message (v : JsVal) : JsVal :=
  match v with
  | VError _ m => VStr m
  | VObject _ props =>
      match lookup "message" props with Some x => x | None => VUndefined end
  | _ => VUndefined
  end.

(** The abstract operation ToString applied to an object: it calls the
    object's [toString].  An error object prints [name: message]; an
    ordinary object prints [[object Object]] through the inherited method
    unless an own data property shadows it with something that cannot be
    called; a promise prints its tag; an object without prototype has no
    method to call. *)
Definition object_to_string (v : JsVal) : Completion string :=
  match v with
  | VError c m =>
      Return (if String.eqb m "" then ctor_name c else ctor_name c ++ ": " ++ m)
  | VObject ObjectPrototype props =>
      match lookup "toString" props with
      | None => Return "[object Object]"
      | Some _ => Throw (newTypeError "Cannot convert object to primitive value")
      end
  | VPromise _ => Return "[object Promise]"
  | _ => Throw (newTypeError "Cannot convert object to primitive value")
  end.

(** ToString, as a template literal [`${v}`] applies it. *)
Definition ToString (v : JsVal) : Completion string :=
  match v with
  | VUndefined => Return "undefined"
  | VNull => Return "null"
  | VBool true => Return "true"
  | VBool false => Return "false"
  | VNum n => Return (string_of_Z n)
  | VBigInt n => Return (string_of_Z n)
  | VStr s => Return s
  | VSymbol _ => Throw (newTypeError "Cannot convert a Symbol value to a string")
  | _ => object_to_string v
  end.

(** The function [String(v)]: ToString, except that a symbol is described
    instead of refused. *)
Definition String_ (v : JsVal) : Completion string :=
  match v with
  | VSymbol d => Return ("Symbol(" ++ d ++ ")")
  | _ => ToString v
  end.

(** [JSON.stringify]: QuoteJSONString.  The quote, the backslash and the
    control characters are escaped; everything else is copied. *)
Definition dquote : ascii := ascii_of_nat 34.

Definition hex_digit (n : nat) : ascii :=
  ascii_of_nat (if Nat.ltb n 10 then 48 + n else 87 + n).

Definition quote_char (c : ascii) : string :=
  let n := nat_of_ascii c in
  if Nat.eqb n 34 then String "\" (String dquote "")
  else if Nat.eqb n 92 then "\\"
  else if Nat.eqb n 8 then "\b"
  else if Nat.eqb n 9 then "\t"
  else if Nat.eqb n 10 then "\n"
  else if Nat.eqb n 12 then "\f"
  else if Nat.eqb n 13 then "\r"
  else if Nat.ltb n 32 then
    "\u00" ++ String (hex_digit (Nat.div n 16)) (String (hex_digit (Nat.modulo n 16)) "")
  else String c "".

Fixpoint quote_chars (s : string) : string :=
  match s with
  | EmptyString => ""
  | String c rest => quote_char c ++ quote_chars rest
  end.

Definition QuoteJSONString (s : string) : string :=
  String dquote (quote_chars s ++ String dquote "").

Definition join_members (members : list string) : string :=
  "{" ++ String.concat "," members ++ "}".

(** [JSON.stringify]: SerializeJSONProperty.  [None] is the [undefined]
    that it answers for a value JSON has no text for; inside an object
    such a member is left out.  A BigInt makes it throw.  The own
    properties of an error object are not enumerable. *)
Fixpoint SerializeJSONProperty (v : JsVal) : Completion (option string) :=
  match v with
  | VUndefined => Return None
  | VSymbol _ => Return None
  | VNull => Return (Some "null")
  | VBool true => Return (Some "true")
  | VBool false => Return (Some "false")
  | VNum n => Return (Some (string_of_Z n))
  | VBigInt _ => Throw (newTypeError "Do not know how to serialize a BigInt")
  | VStr s => Return (Some (QuoteJSONString s))
  | VError _ _ => Return (Some "{}")
  | VPromise _ => Return (Some "{}")
  | VObject _ props =>
      let fix members (ps : list (string * JsVal)) : Completion (list string) :=
        match ps with
        | [] => Return []
        | (k, x) :: rest =>
            sx <- SerializeJSONProperty x ;;
            ms <- members rest ;;
            Return (match sx with
                    | Some t => (QuoteJSONString k ++ ":" ++ t) :: ms
                    | None => ms
                    end)
        end in
      ms <- members props ;;
      Return (Some (join_members ms))
  end.

(** [JSON.stringify(v)]: a string, or [undefined]. *)
Definition JSON_stringify (v : JsVal) : Completion JsVal :=
  r <- SerializeJSONProperty v ;;
  Return (match r with Some s => VStr s | None => VUndefined end).

(** [typeof v] *)
Definition typeof (v : JsVal) : string :=
  match v with
  | VUndefined => "undefined"
  | VNull => "object"
  | VBool _ => "boolean"
  | VNum _ => "number"
  | VBigInt _ => "bigint"
  | VStr _ => "string"
  | VSymbol _ => "symbol"
  | VError _ _ => "object"
  | VObject _ _ => "object"
  | VPromise _ => "object"
  end.

(** [v instanceof Error], [v instanceof Promise] *)
Definition instanceof_Error (v : JsVal) : bool :=
  match v with VError _ _ => true | _ => false end.

Definition instanceof_Promise (v : JsVal) : bool :=
  match v with VPromise _ => true | _ => false end.

(** [v === null], [v === undefined] *)
Definition is_null (v : JsVal) : bool :=
  match v with VNull => true | _ => false end.

Definition is_undefined (v : JsVal) : bool :=
  match v with VUndefined => true | _ => false end.

(** ** The error normalizer *)

(** [convertErrorToString], rustify/index.ts lines 51-71.  Its declared
    result is [string]; what it returns in the last case is whatever
    [JSON.stringify] returned. *)
Definition convertErrorToString (err : JsVal) : Completion JsVal :=
  if String.eqb (typeof err) "string" then Return err
  else if instanceof_Error err then Return (get_message err)
  else if String.eqb (typeof err) "object"
          && negb (is_null err)
          && in_message err
          && String.eqb (typeof (get_message err)) "string"
  then Return (get_message err)
  else try_catch (JSON_stringify err)
                 (fun _ => s <- String_ err ;; Return (VStr s)).

(** ** Promises and execution mode *)

(** A promise of an [A]; what it is rejected with is any value. *)
Definition Promise (A : Type) : Type := Settlement A JsVal.

(** [p.then(f)] for a callback that returns a plain value or throws. *)
Definition then_ {A B} (p : Promise A) (f : A -> Completion B) : Promise B :=
  match p with
  | Fulfilled a =>
      match f a with
      | Return b => Fulfilled b
      | Throw e => Rejected e
      end
  | Rejected e => Rejected e
  | NeverSettles => NeverSettles
  end.

(** [p.catch(f)] for a callback that returns a plain value or throws. *)
Definition catch_ {A} (p : Promise A) (f : JsVal -> Completion A) : Promise A :=
  match p with
  | Fulfilled a => Fulfilled a
  | Rejected e =>
      match f e with
      | Return b => Fulfilled b
      | Throw e' => Rejected e'
      end
  | NeverSettles => NeverSettles
  end.

(** What a builder or combinator hands back: the wrapper itself, or a
    promise of it. *)
Inductive MaybeAsync (A : Type) :=
| Now (a : A)
| Later (p : Promise A).
Arguments Now {A} a.
Arguments Later {A} p.

(** ** Outcome, SerializableOutcome and the guards *)

(** The object behind [Outcome<T, E>] and [SerializableOutcome<T>]: which
    of the keys [value], [error], [ok] it has, and what they hold.  The
    guards [isOk] and [isErr] look at nothing else. *)
Record Outcome := mkOutcome {
  value : option JsVal;
  error : option JsVal;
  ok : option bool
}.

(** The object literals of the source. *)
Definition OutcomeOk (v : JsVal) : Outcome := mkOutcome (Some v) None None.
Definition OutcomeErr (e : JsVal) : Outcome := mkOutcome None (Some e) None.
Definition SerializableOk (v : JsVal) : Outcome := mkOutcome (Some v) None (Some true).
Definition SerializableErr (e : JsVal) : Outcome := mkOutcome None (Some e) (Some false).

(** Reading a key that may be missing. *)
Definition read (slot : option JsVal) : JsVal :=
  match slot with Some v => v | None => VUndefined end.

Definition has {A} (slot : option A) : bool :=
  match slot with Some _ => true | None => false end.

(** [isOk], line 161. *)
Definition isOk (outcome : Outcome) : bool :=
  has (value outcome)
  || (has (ok outcome) && match ok outcome with Some true => true | _ => false end).

(** [isErr], line 171. *)
Definition isErr (outcome : Outcome) : bool :=
  has (error outcome)
  || (has (ok outcome) && match ok outcome with Some false => true | _ => false end).

(** ** The Result class *)

(** [private outcome: Outcome<T, E>] *)
Record Result := mkResult { outcome : Outcome }.

(** [Ok], line 181, and [Err], line 190. *)
Definition Ok (v : JsVal) : Result := mkResult (OutcomeOk v).
Definition Err (e : JsVal) : Result := mkResult (OutcomeErr e).

(** [new Error(message)]: the message is converted with ToString unless
    it is [undefined]. *)
Definition Error_ (message : JsVal) : Completion JsVal :=
  match message with
  | VUndefined => Return (newError "")
  | _ => s <- ToString message ;; Return (newError s)
  end.

Module Result.

(** The callback of [From]'s promise branch and the body of its plain
    branch, lines 232-237 and 241-247: the same test, the same two
    results. *)
Definition from_outcome (input : Outcome) : Completion Result :=
  if isOk input then Return (mkResult (OutcomeOk (read (value input))))
  else e <- Error_ (read (error input)) ;; Return (mkResult (OutcomeErr e)).

(** [Result.From], lines 229-250. *)
Definition From (input : MaybeAsync Outcome) : Completion (MaybeAsync Result) :=
  match input with
  | Later p =>
      Return (Later (catch_ (then_ p from_outcome)
                            (fun err => s <- convertErrorToString err ;;
                                        e <- Error_ s ;;
                                        Return (Err e))))
  | Now o => r <- from_outcome o ;; Return (Now r)
  end.

(** [unwrap], lines 331-338. *)
Definition unwrap (this : Result) : Completion JsVal :=
  if isOk (outcome this) then Return (read (value (outcome this)))
  else s <- ToString (read (error (outcome this))) ;;
       Throw (newError ("Attempted to unwrap an 'Err' result: " ++ s)).

Definition expect (this : Result) (message : string) : Completion JsVal :=
  if isOk (outcome this) then Return (read (value (outcome this)))
  else Throw (newError message).

Definition unwrapOr (this : Result) (defaultValue : JsVal) : JsVal :=
  if isOk (outcome this) then read (value (outcome this)) else defaultValue.

Definition unwrapOrElse (this : Result) (onErrorFunc : JsVal -> Completion JsVal)
  : Completion JsVal :=
  if isOk (outcome this) then Return (read (value (outcome this)))
  else onErrorFunc (read (error (outcome this))).

Definition unwrapErr (this : Result) : Completion JsVal :=
  if isErr (outcome this) then Return (read (error (outcome this)))
  else Throw (newError "Attempted to unwrap `Err` from an `Ok` result.").

Definition expectErr (this : Result) (message : string) : Completion JsVal :=
  if isErr (outcome this) then Return (read (error (outcome this)))
  else Throw (newError message).

(** [map], lines 449-459. *)
Definition map (this : Result) (transform : JsVal -> Completion JsVal)
  : Completion (MaybeAsync Result) :=
  if isOk (outcome this) then
    result <- transform (read (value (outcome this))) ;;
    match result with
    | VPromise p => Return (Later (then_ p (fun v => Return (Ok v))))
    | _ => Return (Now (Ok result))
    end
  else Return (Now (mkResult (outcome this))).

(** [mapErr], lines 485-495. *)
Definition mapErr (this : Result) (transform : JsVal -> Completion JsVal)
  : Completion (MaybeAsync Result) :=
  if isErr (outcome this) then
    result <- transform (read (error (outcome this))) ;;
    match result with
    | VPromise p => Return (Later (then_ p (fun e => Return (Err e))))
    | _ => Return (Now (Err result))
    end
  else Return (Now (Ok (read (value (outcome this))))).

Definition and (this otherResult : Result) : Result :=
  if isOk (outcome this) then otherResult else Err (read (error (outcome this))).

(** [andThen], lines 534-539. *)
Definition andThen (this : Result)
    (transform : JsVal -> Completion (MaybeAsync Result))
  : Completion (MaybeAsync Result) :=
  if isOk (outcome this) then transform (read (value (outcome this)))
  else Return (Now (Err (read (error (outcome this))))).

Definition or (this otherResult : Result) : Result :=
  if isOk (outcome this) then Ok (read (value (outcome this))) else otherResult.

Definition orElse (this : Result)
    (onErrorFunc : JsVal -> Completion (MaybeAsync Result))
  : Completion (MaybeAsync Result) :=
  if isOk (outcome this) then Return (Now (Ok (read (value (outcome this)))))
  else onErrorFunc (read (error (outcome this))).

(** [isOkAnd], lines 290-295, and [isErrAnd], lines 317-322: what the
    predicate returns is handed back as it is. *)
Definition isOkAnd (this : Result) (func : JsVal -> Completion JsVal)
  : Completion JsVal :=
  if isOk (outcome this) then func (read (value (outcome this)))
  else Return (VBool false).

Definition isErrAnd (this : Result) (func : JsVal -> Completion JsVal)
  : Completion JsVal :=
  if isErr (outcome this) then func (read (error (outcome this)))
  else Return (VBool false).

(** The methods [isOk] and [isErr], lines 270-282. *)
Definition isOk (this : Result) : bool := isOk (outcome this).
Definition isErr (this : Result) : bool := isErr (outcome this).

End Result.

(** ** Builders *)

(** [buildSerializableOutcome], lines 99-110. *)
Definition buildSerializableOutcome (operation : unit -> Completion JsVal)
  : Completion (MaybeAsync Outcome) :=
  try_catch
    (result <- operation tt ;;
     match result with
     | VPromise p =>
         Return (Later (catch_ (then_ p (fun v => Return (SerializableOk v)))
                               (fun err => e <- convertErrorToString err ;;
                                           Return (SerializableErr e))))
     | _ => Return (Now (SerializableOk result))
     end)
    (fun err => error <- convertErrorToString err ;;
                Return (Now (SerializableErr error))).

(** [buildResult], lines 140-151. *)
Definition buildResult (operation : unit -> Completion JsVal)
  : Completion (MaybeAsync Result) :=
  try_catch
    (result <- operation tt ;;
     match result with
     | VPromise p =>
         Return (Later (catch_ (then_ p (fun v => Return (Ok v)))
                               (fun err => Return (Err err))))
     | _ => Return (Now (Ok result))
     end)
    (fun err => Return (Now (Err err))).

(** ** The tuple bridge *)

(** [GoifyResult<T, E>]: [[T, null] | [null, E]]. *)
Definition GoifyResult : Type := JsVal * JsVal.

(** [goify], goify/index.ts lines 29-45. *)
Definition goify (operation : unit -> Completion JsVal)
  : Completion (MaybeAsync GoifyResult) :=
  try_catch
    (result <- operation tt ;;
     match result with
     | VPromise p =>
         Return (Later (catch_ (then_ p (fun data => Return (data, VNull)))
                               (fun caughtError => Return (VNull, caughtError))))
     | _ => Return (Now (result, VNull))
     end)
    (fun caughtError => Return (Now (VNull, caughtError))).

(** [goifySync], the synchronous sibling, lines 35-42 of its file. *)
Definition goifySync (syncOperation : unit -> Completion JsVal)
  : Completion GoifyResult :=
  try_catch
    (result <- syncOperation tt ;; Return (result, VNull))
    (fun caughtError => Return (VNull, caughtError)).

(** ** The Option class *)

(** [isNone], line 590, and [isSome], line 598. *)
Definition isNone (v : JsVal) : bool := is_undefined v.
Definition isSome (v : JsVal) : bool := negb (is_undefined v).

(** [private value?: T]: the field holds [undefined] while it is unset. *)
Record Option := mkOption { this_value : JsVal }.

(** The constructor, lines 657-661. *)
Definition new_Option (v : JsVal) : Option :=
  if negb (is_undefined v) && negb (is_null v) then mkOption v
  else mkOption VUndefined.

(** [Some], line 943, and [None], line 951. *)
Definition Some_ (v : JsVal) : Option := new_Option v.
Definition None_ : Option := new_Option VUndefined.

(** The Option objects that exist, by reference: [take] assigns to a
    field of its receiver, and what it returns is another object. *)
Definition Ref : Type := nat.
Definition Heap : Type := list Option.

Definition heap_get (h : Heap) (r : Ref) : option Option := nth_error h r.

Fixpoint heap_set (h : Heap) (r : Ref) (o : Option) : Heap :=
  match h, r with
  | [], _ => []
  | _ :: rest, O => o :: rest
  | x :: rest, S r' => x :: heap_set rest r' o
  end.

Definition heap_new (h : Heap) (o : Option) : Ref * Heap :=
  (List.length h, (h ++ [o])%list).

Module Option.

Definition unwrap (this : Option) : Completion JsVal :=
  if isSome (this_value this) then Return (this_value this)
  else Throw (newError "Attempted to unwrap a 'None' Option. No value is present.").

Definition expect (this : Option) (message : string) : Completion JsVal :=
  if isSome (this_value this) then Return (this_value this)
  else Throw (newError message).

Definition unwrapOr (this : Option) (_default : JsVal) : JsVal :=
  if isSome (this_value this) then this_value this else _default.

(** [map], lines 802-811. *)
Definition map (this : Option) (func : JsVal -> Completion JsVal)
  : Completion (MaybeAsync Option) :=
  if isSome (this_value this) then
    result <- func (this_value this) ;;
    match result with
    | VPromise p => Return (Later (then_ p (fun res => Return (new_Option res))))
    | _ => Return (Now (new_Option result))
    end
  else Return (Now None_).

Definition andThen (this : Option)
    (transform : JsVal -> Completion (MaybeAsync Option))
  : Completion (MaybeAsync Option) :=
  if isSome (this_value this) then transform (this_value this)
  else Return (Now None_).

Definition and (this other : Option) : Option :=
  if isSome (this_value this) then other else new_Option VUndefined.

Definition or (this other : Option) : Option :=
  if isSome (this_value this) then this else other.

(** [take], lines 893-897: a new object is made from the receiver's field,
    then the field of the receiver is assigned. *)
Definition take (this : Ref) (h : Heap) : option (Ref * Heap) :=
  match heap_get h this with
  | None => None
  | Some self =>
      let (option, h1) := heap_new h (new_Option (this_value self)) in
      let h2 := heap_set h1 this (mkOption VUndefined) in
      Some (option, h2)
  end.

Definition okOr (this : Option) (error : JsVal) : Result :=
  let value := this_value this in
  if isSome value then mkResult (OutcomeOk value)
  else mkResult (OutcomeErr error).

(** [isSomeAnd], lines 701-706. *)
Definition isSomeAnd (this : Option) (func : JsVal -> Completion JsVal)
  : Completion JsVal :=
  if isSome (this_value this) then func (this_value this)
  else Return (VBool false).

(** [unwrapOrElse], lines 771-776. *)
Definition unwrapOrElse (this : Option) (func : unit -> Completion JsVal)
  : Completion JsVal :=
  if isSome (this_value this) then Return (this_value this) else func tt.

(** [okOrElse], lines 924-932. *)
Definition okOrElse (this : Option) (func : unit -> Completion JsVal)
  : Completion Result :=
  let value := this_value this in
  if isSome value then Return (mkResult (OutcomeOk value))
  else error <- func tt ;; Return (mkResult (OutcomeErr error)).

(** The methods [isSome] and [isNone], lines 668-679. *)
Definition isSome (this : Option) : bool := isSome (this_value this).
Definition isNone (this : Option) : bool := isNone (this_value this).

(** [xor], lines 877-886. *)
Definition xor (this other : Option) : Option :=
  let some := isSome this in
  if Bool.eqb some (isSome other) then new_Option VUndefined
  else if some then this
  else other.

End Option.

(** ** The dispatcher *)

(** What [match] may be handed at run time: an instance of [Option], an
    instance of [Result], or anything else. *)
Inductive MatchInput :=
| InOption (o : Option)
| InResult (r : Result)
| InOther (v : JsVal).

(** The handler object: which of the keys [Some], [None], [Ok], [Err] it
    has, and the functions they hold. *)
Record Matcher (R : Type) := mkMatcher {
  key_Some : option (JsVal -> Completion R);
  key_None : option (unit -> Completion R);
  key_Ok : option (JsVal -> Completion R);
  key_Err : option (JsVal -> Completion R)
}.
Arguments mkMatcher {R}.
Arguments key_Some {R}.
Arguments key_None {R}.
Arguments key_Ok {R}.
Arguments key_Err {R}.

(** Calling what a destructuring bound: a key that was missing is
    [undefined], and calling it throws. *)
Definition call {A R} (f : option (A -> Completion R)) (a : A) : Completion R :=
  match f with
  | Some g => g a
  | None => Throw (newTypeError "undefined is not a function")
  end.

(** Lines 986 and 995. *)
Definition isOptionMatch (o : MatchInput) : bool :=
  match o with InOption _ => true | _ => false end.
Definition isResultMatch (o : MatchInput) : bool :=
  match o with InResult _ => true | _ => false end.

(** Lines 1006 and 1016. *)
Definition isOptionMatcher {R} (m : Matcher R) : bool :=
  has (key_Some m) && has (key_None m).
Definition isResultMatcher {R} (m : Matcher R) : bool :=
  has (key_Ok m) && has (key_Err m).

Definition MatchError : JsVal :=
  newError "MatchError: Input value type does not align with the provided handler, or a required handler function (e.g., Some, None, Ok, Err) is missing.".

(** [match], lines 1055-1074: the two guarded blocks, then the throw.  The
    [instanceof] tests are the case analysis on the input. *)
Definition match_ {R} (input : MatchInput) (matcher : Matcher R) : Completion R :=
  match input with
  | InOption o =>
      if isOptionMatch input && isOptionMatcher matcher then
        if Option.isSome o then v <- Option.unwrap o ;; call (key_Some matcher) v
        else call (key_None matcher) tt
      else Throw MatchError
  | InResult r =>
      if isResultMatch input && isResultMatcher matcher then
        if Result.isOk r then v <- Result.unwrap r ;; call (key_Ok matcher) v
        else e <- Result.unwrapErr r ;; call (key_Err matcher) e
      else Throw MatchError
  | InOther _ => Throw MatchError
  end.

(** ** Vocabulary of the statements *)

(** The third test of the normalizer, lines 58-63. *)
Definition object_with_string_message (err : JsVal) : bool :=
  String.eqb (typeof err) "object"
  && negb (is_null err)
  && in_message err
  && String.eqb (typeof (get_message err)) "string".

(** The policy's words for the first and third case: the input is a
    string; the input is an object, no error, whose [message] property is
    a string. *)
Definition is_string (v : JsVal) : bool :=
  match v with VStr _ => true | _ => false end.

Definition string_message (err : JsVal) : option string :=
  match err with
  | VObject _ props =>
      match lookup "message" props with
      | Some (VStr m) => Some m
      | _ => None
      end
  | _ => None
  end.

(** An input on which the normalizer throws: an object without prototype
    that holds a BigInt.  [JSON.stringify] refuses the BigInt, and
    [String] finds no [toString] to call. *)
Definition bare_object_with_bigint : JsVal :=
  VObject NullPrototype [("n", VBigInt 1)].

Ltac plain_value v :=
  destruct v; simpl in *; try discriminate; try reflexivity.

(** A synchronous transform, as [andThen] receives it. *)
Definition sync (f : JsVal -> Completion Result)
  : JsVal -> Completion (MaybeAsync Result) :=
  fun x => r <- f x ;; Return (Now r).

(** Calling a method of [Result] on what a combinator handed back: a
    promise has no such method. *)
Definition on_Result {A} (m : MaybeAsync Result) (method : Result -> Completion A)
  : Completion A :=
  match m with
  | Now r => method r
  | Later _ => Throw (newTypeError "andThen is not a function")
  end.

(** [r.andThen(f).andThen(g)] and [r.andThen(x => f(x).andThen(g))] *)
Definition andThen_left (r : Result) (f g : JsVal -> Completion Result)
  : Completion (MaybeAsync Result) :=
  m <- Result.andThen r (sync f) ;;
  on_Result m (fun r1 => Result.andThen r1 (sync g)).

Definition andThen_right (r : Result) (f g : JsVal -> Completion Result)
  : Completion (MaybeAsync Result) :=
  Result.andThen r (fun x => r1 <- f x ;; Result.andThen r1 (sync g)).

(** [x => x] *)
Definition identity (x : JsVal) : Completion JsVal := Return x.

(** What can be seen of a Result from outside. *)
Definition observe (r : Result)
  : bool * bool * Completion JsVal * Completion JsVal :=
  (Result.isOk r, Result.isErr r, Result.unwrap r, Result.unwrapErr r).

(** The handlers of the worked example, [{Some: x => x * 2, None: () => 0}].
    The product is modelled on the numbers of the fragment. *)
Definition times_two (x : JsVal) : Completion JsVal :=
  match x with
  | VNum n => Return (VNum (n * 2))
  | _ => Return VUndefined
  end.

Definition example_matcher : Matcher JsVal :=
  mkMatcher (Some times_two) (Some (fun _ => Return (VNum 0))) None None.

(** The invariant of [Outcome<T, E>]: exactly one of [value] and [error]
    is a key of the object, and [ok] is none. *)
Definition one_slot (o : Outcome) : bool :=
  xorb (has (value o)) (has (error o)) && negb (has (ok o)).

(** The two shapes of [SerializableOutcome<T>] that the builder writes:
    one slot, and the flag that goes with it. *)
Definition wire_form (o : Outcome) : bool :=
  match value o, error o, ok o with
  | Some _, None, Some true => true
  | None, Some _, Some false => true
  | _, _, _ => false
  end.


(** A promise that is not rejected: it is fulfilled or stays pending. *)
Definition not_rejected {A} (p : Promise A) : bool :=
  match p with Rejected _ => false | _ => true end.

(** Calling [map] again on what [map] handed back. *)
Definition map_twice (r : Result) (f g : JsVal -> Completion JsVal)
  : Completion (MaybeAsync Result) :=
  m <- Result.map r f ;; on_Result m (fun r1 => Result.map r1 g).

(** [x => g(f(x))] *)
Definition compose (f g : JsVal -> Completion JsVal) : JsVal -> Completion JsVal :=
  fun x => y <- f x ;; g y.

(** A transform that never hands back a promise. *)
Definition plain_transform (f : JsVal -> Completion JsVal) : Prop :=
  forall x y, f x = Return y -> instanceof_Promise y = false.

(** [r.map(f).mapErr(g)] and [r.mapErr(g).map(f)] *)
Definition map_mapErr (r : Result) (f g : JsVal -> Completion JsVal)
  : Completion (MaybeAsync Result) :=
  m <- Result.map r f ;; on_Result m (fun r1 => Result.mapErr r1 g).

Definition mapErr_map (r : Result) (f g : JsVal -> Completion JsVal)
  : Completion (MaybeAsync Result) :=
  m <- Result.mapErr r g ;; on_Result m (fun r1 => Result.map r1 f).

(** [r.orElse(f).orElse(g)] and [r.orElse(e => f(e).orElse(g))] *)
Definition orElse_left (r : Result) (f g : JsVal -> Completion Result)
  : Completion (MaybeAsync Result) :=
  m <- Result.orElse r (sync f) ;;
  on_Result m (fun r1 => Result.orElse r1 (sync g)).

Definition orElse_right (r : Result) (f g : JsVal -> Completion Result)
  : Completion (MaybeAsync Result) :=
  Result.orElse r (fun x => r1 <- f x ;; Result.orElse r1 (sync g)).

(** [r.map(p).unwrapOr(false)] *)
Definition map_unwrapOr_false (r : Result) (p : JsVal -> Completion JsVal)
  : Completion JsVal :=
  m <- Result.map r p ;;
  on_Result m (fun r1 => Return (Result.unwrapOr r1 (VBool false))).

(** [Result.From(buildSerializableOutcome(operation))] *)
Definition through_the_wire (operation : unit -> Completion JsVal)
  : Completion (MaybeAsync Result) :=
  m <- buildSerializableOutcome operation ;; Result.From m.

(** An operation that, when it fails, fails with an error made by
    [new Error(m)], thrown or as the reason of a rejection. *)
Definition fails_with_new_Error (operation : unit -> Completion JsVal) : Prop :=
  match operation tt with
  | Throw e => exists m, e = newError m
  | Return (VPromise (Rejected e)) => exists m, e = newError m
  | _ => True
  end.

(** The invariant of an Option: its field never holds [null]. *)
Definition made (o : Option) : bool := negb (is_null (this_value o)).

(** Calling a method of [Option] on what [map] handed back: a promise has
    no such method. *)
Definition on_Option {A} (m : MaybeAsync Option) (method : Option -> Completion A)
  : Completion A :=
  match m with
  | Now o => method o
  | Later _ => Throw (newTypeError "map is not a function")
  end.

(** [o.map(f).map(g)] *)
Definition Option_map_twice (o : Option) (f g : JsVal -> Completion JsVal)
  : Completion (MaybeAsync Option) :=
  m <- Option.map o f ;; on_Option m (fun o1 => Option.map o1 g).

(** A transform that hands back neither a promise nor [null] nor
    [undefined]. *)
Definition present_transform (f : JsVal -> Completion JsVal) : Prop :=
  forall x y, f x = Return y ->
    instanceof_Promise y = false /\ is_null y = false /\ is_undefined y = false.

(** [{Ok: onSome, Err: () => onNone()}] and [{Some: onSome, None: onNone}] *)
Definition Result_handlers {R} (onSome : JsVal -> Completion R)
    (onNone : unit -> Completion R) : Matcher R :=
  mkMatcher None None (Some onSome) (Some (fun _ => onNone tt)).

Definition Option_handlers {R} (onSome : JsVal -> Completion R)
    (onNone : unit -> Completion R) : Matcher R :=
  mkMatcher (Some onSome) (Some onNone) None None.

(** ** The earlier generation

    The second half of [rustify/index.ts], lines 1075-1734, and the
    [goify] of the file that also holds [goifySync]: every function is
    [async] or synchronous by declaration.  Its [convertErrorToString],
    lines 1098-1118, and its guards [isNone] and [isSome], lines
    1428-1429, are the same text as the ones above. *)

(** [await e]: where control goes and with what: on with a value, into
    [catch] with a reason, or nowhere.  A promise is adopted; no other
    value of the fragment has a [then] that can be called. *)
Definition awaited (e : Completion JsVal) : Promise JsVal :=
  match e with
  | Throw reason => Rejected reason
  | Return (VPromise p) => p
  | Return v => Fulfilled v
  end.

(** [await m] for something that is a wrapper or a promise of one. *)
Definition awaited_wrapper {A} (m : MaybeAsync A) : Promise A :=
  match m with Now a => Fulfilled a | Later p => p end.

(** The promise of
    [async () => { try { const x = await e; return k(x) } catch (err) { return handler(err) } }]. *)
Definition async_try {X A} (e : Promise X) (k : X -> A)
    (handler : JsVal -> Completion A) : Promise A :=
  match e with
  | Fulfilled x => Fulfilled (k x)
  | Rejected err =>
      match handler err with
      | Return a => Fulfilled a
      | Throw t => Rejected t
      end
  | NeverSettles => NeverSettles
  end.

(** The promise of
    [new Promise(async (resolve) => { try { const x = await e; resolve(k(x)) } catch (err) { resolve(handler(err)) } })]:
    when the handler throws, [resolve] is never called. *)
Definition executor_try {X A} (e : Promise X) (k : X -> A)
    (handler : JsVal -> Completion A) : Promise A :=
  match e with
  | Fulfilled x => Fulfilled (k x)
  | Rejected err =>
      match handler err with
      | Return a => Fulfilled a
      | Throw _ => NeverSettles
      end
  | NeverSettles => NeverSettles
  end.

(** [o.message], which throws on [null] and [undefined]. *)
Definition member_message (o : JsVal) : Completion JsVal :=
  match o with
  | VUndefined =>
      Throw (newTypeError "Cannot read properties of undefined (reading 'message')")
  | VNull =>
      Throw (newTypeError "Cannot read properties of null (reading 'message')")
  | _ => Return (get_message o)
  end.

(** [private result: Result<T>] *)
Record SafeResult := mkSafeResult { result : Outcome }.

Module Legacy.

(** [goify], the asynchronous sibling of [goifySync], lines 14-21 of its
    file. *)
Definition goify (operation : unit -> Completion JsVal) : Promise GoifyResult :=
  async_try (awaited (operation tt))
            (fun result => (result, VNull))
            (fun caughtError => Return (VNull, caughtError)).

(** [buildResult], lines 1128-1140. *)
Definition buildResult (operation : unit -> Completion JsVal) : Promise Outcome :=
  executor_try (awaited (operation tt))
               (fun value => OutcomeOk value)
               (fun err => error <- convertErrorToString err ;;
                           Return (OutcomeErr error)).

(** [buildSafeResult], lines 1142-1154. *)
Definition buildSafeResult (operation : unit -> Completion JsVal)
  : Promise SafeResult :=
  executor_try (awaited (operation tt))
               (fun value => mkSafeResult (OutcomeOk value))
               (fun err => error <- convertErrorToString err ;;
                           Return (mkSafeResult (OutcomeErr error))).

(** [isOk], line 1156, and [isErr], line 1159. *)
Definition isOk (result : Outcome) : bool := has (value result).
Definition isErr (result : Outcome) : bool := has (error result).

Module SafeResult.

(** [SafeResult.From], lines 1175-1185. *)
Definition From (asyncResult : MaybeAsync Outcome) : Promise SafeResult :=
  async_try (awaited_wrapper asyncResult)
            (fun result => mkSafeResult result)
            (fun err => error <- convertErrorToString err ;;
                        Return (mkSafeResult (OutcomeErr error))).

Definition unwrap (this : SafeResult) : Completion JsVal :=
  if isOk (result this) then Return (read (value (result this)))
  else s <- ToString (read (error (result this))) ;;
       Throw (newError ("Attempted to unwrap an 'Err' result: " ++ s)).

Definition expect (this : SafeResult) (message : string) : Completion JsVal :=
  if isOk (result this) then Return (read (value (result this)))
  else Throw (newError message).

Definition unwrapOr (this : SafeResult) (defaultValue : JsVal) : JsVal :=
  if isOk (result this) then read (value (result this)) else defaultValue.

Definition unwrapOrElse (this : SafeResult) (onErrorFunc : JsVal -> Completion JsVal)
  : Completion JsVal :=
  if isOk (result this) then Return (read (value (result this)))
  else onErrorFunc (read (error (result this))).

(** [unwrapErr], lines 1297-1302, and [expectErr], lines 1312-1317. *)
Definition unwrapErr (this : SafeResult) : Completion JsVal :=
  if isErr (result this) then Error_ (read (error (result this)))
  else Throw (newError "Attempted to unwrap `Err` from an `Ok` result.").

Definition expectErr (this : SafeResult) (message : string) : Completion JsVal :=
  if isErr (result this) then Error_ (read (error (result this)))
  else Throw (newError message).

(** [map], lines 1325-1331, and [mapErr], lines 1340-1346. *)
Definition map (this : SafeResult) (transform : JsVal -> Completion JsVal)
  : Completion SafeResult :=
  if isOk (result this) then
    value <- transform (read (value (result this))) ;;
    Return (mkSafeResult (OutcomeOk value))
  else Return (mkSafeResult (result this)).

Definition mapErr (this : SafeResult) (transform : JsVal -> Completion JsVal)
  : Completion SafeResult :=
  if isErr (result this) then
    x <- transform (read (error (result this))) ;;
    error <- convertErrorToString x ;;
    Return (mkSafeResult (OutcomeErr error))
  else Return (mkSafeResult (result this)).

Definition and (this otherResult : SafeResult) : SafeResult :=
  if isOk (result this) then otherResult else mkSafeResult (result this).

Definition andThen (this : SafeResult) (transform : JsVal -> Completion SafeResult)
  : Completion SafeResult :=
  if isOk (result this) then transform (read (value (result this)))
  else Return (mkSafeResult (result this)).

Definition or (this otherResult : SafeResult) : SafeResult :=
  if isOk (result this) then this else otherResult.

Definition orElse (this : SafeResult) (onErrorFunc : JsVal -> Completion SafeResult)
  : Completion SafeResult :=
  if isOk (result this) then Return this
  else onErrorFunc (read (error (result this))).

(** [ok], lines 1401-1406, [err], lines 1412-1417, and [toResult]. *)
Definition ok (this : SafeResult) : JsVal :=
  if isOk (result this) then read (value (result this)) else VUndefined.

Definition err (this : SafeResult) : JsVal :=
  if isErr (result this) then read (error (result this)) else VUndefined.

Definition toResult (this : SafeResult) : Outcome := result this.

End SafeResult.

(** The constructor, lines 1460-1462: the value is stored as it is. *)
Definition new_Option (v : JsVal) : Option := mkOption v.

(** [Some], line 1677, and [None], line 1686. *)
Definition Some_ (v : JsVal) : Option := new_Option v.
Definition None_ : Option := new_Option VUndefined.

Module Option.

(** [Option.From], lines 1444-1452. *)
Definition From (v : JsVal) : Promise Option :=
  async_try (awaited (Return v))
            (fun res => new_Option res)
            (fun _ => Return (new_Option VUndefined)).

(** [unwrap], lines 1510-1515: the error has no message. *)
Definition unwrap (this : Option) : Completion JsVal :=
  if isSome (this_value this) then Return (this_value this) else Throw (newError "").

Definition expect (this : Option) (message : string) : Completion JsVal :=
  if isSome (this_value this) then Return (this_value this) else Throw (newError message).

Definition unwrapOr (this : Option) (_default : JsVal) : JsVal :=
  if isSome (this_value this) then this_value this else _default.

(** [map], lines 1562-1567. *)
Definition map (this : Option) (func : JsVal -> Completion JsVal)
  : Completion Option :=
  if isSome (this_value this) then x <- func (this_value this) ;; Return (new_Option x)
  else Return (new_Option VUndefined).

Definition andThen (this : Option) (func : JsVal -> Completion Option)
  : Completion Option :=
  if isSome (this_value this) then func (this_value this)
  else Return (new_Option VUndefined).

(** [okOr], lines 1641-1649, and [okOrElse], lines 1658-1666. *)
Definition okOr (this : Option) (err : JsVal) : Completion SafeResult :=
  let value := this_value this in
  if isSome value then Return (mkSafeResult (OutcomeOk value))
  else error <- member_message err ;;
       Return (mkSafeResult (OutcomeErr error)).

Definition okOrElse (this : Option) (func : unit -> Completion JsVal)
  : Completion SafeResult :=
  let value := this_value this in
  if isSome value then Return (mkSafeResult (OutcomeOk value))
  else e <- func tt ;;
       error <- member_message e ;;
       Return (mkSafeResult (OutcomeErr error)).

(** The methods [isSome] and [isNone], lines 1468-1478. *)
Definition isSome (this : Option) : bool := isSome (this_value this).
Definition isNone (this : Option) : bool := isNone (this_value this).

End Option.

(** What the earlier [match] may be handed. *)
Inductive MatchInput :=
| InOption (o : Option)
| InSafeResult (r : SafeResult)
| InOther (v : JsVal).

(** The body that [match] and [matchAsync] share, lines 1711-1717 and
    1724-1731. *)
Definition match_body (input : MatchInput) : Completion JsVal :=
  match input with
  | InOption o => Option.expect o "Option is None"
  | InSafeResult r => SafeResult.unwrap r
  | InOther _ => Throw (newError "Unhandled input type for match function.")
  end.

(** [match], lines 1708-1718. *)
Definition match_ (input : MatchInput) : Completion GoifyResult :=
  goifySync (fun _ => match_body input).

(** The promise of the [async] function that [matchAsync] hands to
    [goify]: a value that is returned from an [async] function is
    awaited. *)
Definition matchAsync_operation (input : Promise MatchInput) : Promise JsVal :=
  match input with
  | Fulfilled r => awaited (match_body r)
  | Rejected e => Rejected e
  | NeverSettles => NeverSettles
  end.

(** [matchAsync], lines 1720-1732. *)
Definition matchAsync (input : Promise MatchInput) : Promise GoifyResult :=
  goify (fun _ => Return (VPromise (matchAsync_operation input))).

End Legacy.

(** What an [await] of a call gives: the wrapper, the settlement of the
    promise that was handed back, or the thrown value as a rejection. *)
Definition settled {A} (c : Completion (MaybeAsync A)) : Promise A :=
  match c with
  | Return (Now a) => Fulfilled a
  | Return (Later p) => p
  | Throw e => Rejected e
  end.

(** * Properties *)

(** ** The error normalizer *)

Lemma typeof_is_string (v : JsVal) :
  String.eqb (typeof v) "string" = is_string v.
Proof.
  destruct v; reflexivity.
Qed.

Lemma third_test_is_string_message (err : JsVal) :
  instanceof_Error err = false ->
  object_with_string_message err = true ->
  exists m, string_message err = Some m /\ get_message err = VStr m.
Proof.
  unfold object_with_string_message.
  destruct err as [ | | b | n | n | s | d | c m | p props | p ]; simpl;
    try discriminate.
  intros _. destruct (lookup "message" props) as [x|]; simpl; [| discriminate].
  destruct x; simpl; try discriminate. intros _. eexists. split; reflexivity.
Qed.

Lemma no_string_message_fails_third_test (err : JsVal) :
  instanceof_Error err = false ->
  string_message err = None ->
  object_with_string_message err = false.
Proof.
  intros He Hn.
  destruct (object_with_string_message err) eqn:E; [| reflexivity].
  destruct (third_test_is_string_message err He E) as (m & Hm & _). congruence.
Qed.

Lemma string_message_passes_third_test (err : JsVal) (m : string) :
  string_message err = Some m ->
  is_string err = false /\ instanceof_Error err = false
  /\ object_with_string_message err = true /\ get_message err = VStr m.
Proof.
  unfold object_with_string_message.
  destruct err as [ | | b | n | n | s | d | c m' | p props | p ]; simpl;
    try discriminate.
  destruct (lookup "message" props) as [x|]; [| discriminate].
  destruct x; try discriminate. intros [= ->]. repeat split.
Qed.

Lemma convertErrorToString_fallthrough (err : JsVal) :
  is_string err = false ->
  instanceof_Error err = false ->
  string_message err = None ->
  convertErrorToString err =
  try_catch (JSON_stringify err) (fun _ => s <- String_ err ;; Return (VStr s)).
Proof.
  intros Hs He Hm. unfold convertErrorToString.
  rewrite typeof_is_string, Hs, He.
  pose proof (no_string_message_fails_third_test err He Hm) as H3.
  unfold object_with_string_message in H3. rewrite H3. reflexivity.
Qed.

(** The order of the normalizer's tests, first match wins: a string is
    returned unchanged; an error object gives its message; any other
    non-null object with a string [message] gives that; otherwise what
    [JSON.stringify] answers is returned; and when [JSON.stringify]
    throws, the [String] conversion, where that returns. *)
Lemma convertErrorToString_order :
  (forall s, convertErrorToString (VStr s) = Return (VStr s)) /\
  (forall c m, convertErrorToString (VError c m) = Return (VStr m)) /\
  (forall err m,
      string_message err = Some m ->
      convertErrorToString err = Return (VStr m)) /\
  (forall err j,
      is_string err = false ->
      instanceof_Error err = false ->
      string_message err = None ->
      JSON_stringify err = Return j ->
      convertErrorToString err = Return j) /\
  (forall err t s,
      is_string err = false ->
      instanceof_Error err = false ->
      string_message err = None ->
      JSON_stringify err = Throw t ->
      String_ err = Return s ->
      convertErrorToString err = Return (VStr s)).
Proof.
  split; [reflexivity|].
  split; [reflexivity|].
  split.
  { intros err m Hm.
    destruct (string_message_passes_third_test err m Hm) as (Hs & He & H3 & Hg).
    unfold convertErrorToString. rewrite typeof_is_string, Hs, He.
    unfold object_with_string_message in H3. rewrite H3. now rewrite Hg. }
  split.
  { intros err j H H0 H1 H2.
    rewrite convertErrorToString_fallthrough by assumption. now rewrite H2. }
  intros err t s H H0 H1 H2 H3.
  rewrite convertErrorToString_fallthrough by assumption.
  rewrite H2. simpl. now rewrite H3.
Qed.

(** C2: the code at the failing input.  The claim is that the normalizer
    never throws and falls back to the [String] conversion when
    [JSON.stringify] throws.  On an object without prototype that holds a
    BigInt no earlier test matches, [JSON.stringify] throws on the BigInt,
    and the [String(err)] of the [catch] block, line 69, throws in turn
    because the object has no [toString]: the [TypeError] escapes. *)
Lemma convertErrorToString_throws :
  is_string bare_object_with_bigint = false
  /\ instanceof_Error bare_object_with_bigint = false
  /\ string_message bare_object_with_bigint = None
  /\ JSON_stringify bare_object_with_bigint
     = Throw (newTypeError "Do not know how to serialize a BigInt")
  /\ String_ bare_object_with_bigint
     = Throw (newTypeError "Cannot convert object to primitive value")
  /\ convertErrorToString bare_object_with_bigint
     = Throw (newTypeError "Cannot convert object to primitive value")
  /\ ~ (forall err, exists r, convertErrorToString err = Return r).
Proof.
  repeat (split; [reflexivity|]).
  intros H. destruct (H bare_object_with_bigint) as [r Hr]. discriminate Hr.
Qed.

(** ** Builders *)

(** C1, as the code has it.  Both builders answer at once when the
    operation returns a value that is no promise or throws, and answer a
    promise when it returns one.  [buildResult] puts the thrown value or
    rejection reason in the failure slot as it is.
    [buildSerializableOutcome] puts there what the normalizer returns for
    it: the builder returns, or its promise is fulfilled, exactly when
    the normalizer returns, and then with that result in the failure
    slot. *)
Theorem builders_capture (operation : unit -> Completion JsVal) :
  (forall v, operation tt = Return v -> instanceof_Promise v = false ->
     buildSerializableOutcome operation = Return (Now (SerializableOk v))
     /\ buildResult operation = Return (Now (Ok v))) /\
  (forall e, operation tt = Throw e ->
     buildResult operation = Return (Now (Err e))) /\
  (forall e, operation tt = Throw e ->
     (forall s, convertErrorToString e = Return s ->
        buildSerializableOutcome operation = Return (Now (SerializableErr s)))
     /\ (forall m, buildSerializableOutcome operation = Return m ->
          exists s, convertErrorToString e = Return s
                    /\ m = Now (SerializableErr s))) /\
  (forall v, operation tt = Return (VPromise (Fulfilled v)) ->
     buildSerializableOutcome operation = Return (Later (Fulfilled (SerializableOk v)))
     /\ buildResult operation = Return (Later (Fulfilled (Ok v)))) /\
  (forall e, operation tt = Return (VPromise (Rejected e)) ->
     buildResult operation = Return (Later (Fulfilled (Err e)))) /\
  (forall e, operation tt = Return (VPromise (Rejected e)) ->
     exists p, buildSerializableOutcome operation = Return (Later p)
       /\ (forall s, convertErrorToString e = Return s ->
             p = Fulfilled (SerializableErr s))
       /\ (forall o, p = Fulfilled o ->
             exists s, convertErrorToString e = Return s
                       /\ o = SerializableErr s)) /\
  (operation tt = Return (VPromise NeverSettles) ->
     buildSerializableOutcome operation = Return (Later NeverSettles)
     /\ buildResult operation = Return (Later NeverSettles)).
Proof.
  unfold buildSerializableOutcome, buildResult.
  split; [| split; [| split; [| split; [| split; [| split]]]]].
  - intros v -> Hv. split; plain_value v.
  - intros e ->. reflexivity.
  - intros e ->. simpl. split.
    + intros s ->. reflexivity.
    + intros m. destruct (convertErrorToString e) as [s|t]; simpl; [| discriminate].
      intros [= <-]. now exists s.
  - intros v ->. split; reflexivity.
  - intros e ->. reflexivity.
  - intros e ->. simpl. eexists. split; [reflexivity|].
    destruct (convertErrorToString e) as [s|t]; simpl; split.
    + intros s' [= <-]. reflexivity.
    + intros o [= <-]. now exists s.
    + discriminate.
    + discriminate.
  - intros ->. split; reflexivity.
Qed.

(** The builders on an operation that throws [new Error("x")], on one that
    returns [42], and on promises settled the same two ways. *)
Lemma builders_capture_witness :
  buildSerializableOutcome (fun _ => Throw (newError "x"))
    = Return (Now (SerializableErr (VStr "x")))
  /\ (exists s, convertErrorToString (newError "x") = Return s
                /\ Now (SerializableErr (VStr "x")) = Now (SerializableErr s))
  /\ buildResult (fun _ => Throw (newError "x")) = Return (Now (Err (newError "x")))
  /\ buildResult (fun _ => Return (VNum 42)) = Return (Now (Ok (VNum 42)))
  /\ buildResult (fun _ => Return (VPromise (Fulfilled (VNum 42))))
     = Return (Later (Fulfilled (Ok (VNum 42))))
  /\ buildResult (fun _ => Return (VPromise (Rejected (newError "x"))))
     = Return (Later (Fulfilled (Err (newError "x"))))
  /\ (exists p, buildSerializableOutcome
                  (fun _ => Return (VPromise (Rejected (newError "x"))))
                = Return (Later p)
                /\ p = Fulfilled (SerializableErr (VStr "x")))
  /\ buildResult (fun _ => Return (VPromise NeverSettles)) = Return (Later NeverSettles).
Proof.
  destruct (builders_capture (fun _ => Throw (newError "x")))
    as (_ & T2 & T3 & _).
  destruct (T3 (newError "x") eq_refl) as (T3a & T3b).
  destruct (builders_capture (fun _ => Return (VNum 42))) as (P1 & _).
  destruct (builders_capture (fun _ => Return (VPromise (Fulfilled (VNum 42)))))
    as (_ & _ & _ & F4 & _).
  destruct (builders_capture (fun _ => Return (VPromise (Rejected (newError "x")))))
    as (_ & _ & _ & _ & R5 & R6 & _).
  destruct (R6 (newError "x") eq_refl) as (p & Hp & Hs & _).
  destruct (builders_capture (fun _ => Return (VPromise NeverSettles)))
    as (_ & _ & _ & _ & _ & _ & N7).
  split; [| split; [| split; [| split; [| split; [| split; [| split]]]]]].
  - apply (T3a (VStr "x")). reflexivity.
  - apply (T3b (Now (SerializableErr (VStr "x")))). reflexivity.
  - apply (T2 (newError "x")). reflexivity.
  - apply (P1 (VNum 42)); reflexivity.
  - apply (F4 (VNum 42)). reflexivity.
  - apply (R5 (newError "x")). reflexivity.
  - exists p. split; [exact Hp |]. apply (Hs (VStr "x")). reflexivity.
  - apply N7. reflexivity.
Defined.

(** C1 as stated fails for [buildResult]: the failure it wraps for a thrown
    or rejected [new Error("x")] is the error object, not the string the
    normalizer makes of it. *)
Lemma buildResult_keeps_raw_failure :
  convertErrorToString (newError "x") = Return (VStr "x")
  /\ buildResult (fun _ => Throw (newError "x")) = Return (Now (Err (newError "x")))
  /\ buildResult (fun _ => Throw (newError "x")) <> Return (Now (Err (VStr "x")))
  /\ buildResult (fun _ => Return (VPromise (Rejected (newError "x"))))
     <> Return (Later (Fulfilled (Err (VStr "x")))).
Proof.
  repeat split; discriminate.
Qed.

(** ** The tuple bridge *)

(** C3, as the code has it.  Success gives [[v, null]]; a throw, or the
    rejection of a returned promise, gives [[null, e]] where [e] is the
    very value that was thrown or rejected with; [goify] answers at once
    or in a promise as the operation does; and [goifySync] on an
    operation that throws [new Error("x")] gives [[null, err]] with
    [err.message] equal to ["x"]. *)
Theorem goify_tuple :
  (forall op v, op tt = Return v -> goifySync op = Return (v, VNull)) /\
  (forall op e, op tt = Throw e -> goifySync op = Return (VNull, e)) /\
  (forall op v, op tt = Return v -> instanceof_Promise v = false ->
     goify op = Return (Now (v, VNull))) /\
  (forall op e, op tt = Throw e -> goify op = Return (Now (VNull, e))) /\
  (forall op v, op tt = Return (VPromise (Fulfilled v)) ->
     goify op = Return (Later (Fulfilled (v, VNull)))) /\
  (forall op e, op tt = Return (VPromise (Rejected e)) ->
     goify op = Return (Later (Fulfilled (VNull, e)))) /\
  (exists err, goifySync (fun _ => Throw (newError "x")) = Return (VNull, err)
               /\ instanceof_Error err = true
               /\ get_message err = VStr "x").
Proof.
  unfold goifySync, goify.
  split; [| split; [| split; [| split; [| split; [| split]]]]].
  - intros op v ->. reflexivity.
  - intros op e ->. reflexivity.
  - intros op v -> Hv. plain_value v.
  - intros op e ->. reflexivity.
  - intros op v ->. reflexivity.
  - intros op e ->. reflexivity.
  - exists (newError "x"). repeat split.
Qed.

(** The bridge on operations that return [1], throw [2], and return
    promises settled with them. *)
Lemma goify_tuple_witness :
  goifySync (fun _ => Return (VNum 1)) = Return (VNum 1, VNull)
  /\ goifySync (fun _ => Throw (VNum 2)) = Return (VNull, VNum 2)
  /\ goify (fun _ => Return (VNum 1)) = Return (Now (VNum 1, VNull))
  /\ goify (fun _ => Throw (VNum 2)) = Return (Now (VNull, VNum 2))
  /\ goify (fun _ => Return (VPromise (Fulfilled (VNum 1))))
     = Return (Later (Fulfilled (VNum 1, VNull)))
  /\ goify (fun _ => Return (VPromise (Rejected (VNum 2))))
     = Return (Later (Fulfilled (VNull, VNum 2))).
Proof.
  destruct goify_tuple as (H1 & H2 & H3 & H4 & H5 & H6 & _).
  split; [| split; [| split; [| split; [| split]]]].
  - apply H1. reflexivity.
  - apply H2. reflexivity.
  - apply H3; reflexivity.
  - apply H4. reflexivity.
  - apply H5. reflexivity.
  - apply H6. reflexivity.
Defined.

(** C3 as stated fails where it says the failure is normalized: for a
    thrown [42] the normalizer answers the string ["42"], and the tuple
    holds the number. *)
Lemma goifySync_keeps_raw_failure :
  convertErrorToString (VNum 42) = Return (VStr "42")
  /\ goifySync (fun _ => Throw (VNum 42)) = Return (VNull, VNum 42)
  /\ goifySync (fun _ => Throw (VNum 42)) <> Return (VNull, VStr "42")
  /\ goify (fun _ => Return (VPromise (Rejected (VNum 42))))
     <> Return (Later (Fulfilled (VNull, VStr "42"))).
Proof.
  repeat split; discriminate.
Qed.

(** ** Result *)

Lemma ToString_throws_TypeError (v t : JsVal) :
  ToString v = Throw t -> instanceof_Error t = true.
Proof.
  destruct v as [ | | [|] | n | n | s | d | c m | [|] props | p ]; simpl;
    try discriminate; try (intros [= <-]; reflexivity).
  destruct (lookup "toString" props); [| discriminate].
  intros [= <-]. reflexivity.
Qed.

(** [unwrap] on each kind of Result.  [Ok(v)] unwraps to [v] and is
    [isOk]; on [Err(e)], [unwrap] never returns: it throws an error
    object, and where the template literal can print [e] as [s], what it
    throws is the [Error] whose message ends in [s]. *)
Theorem unwrap_contract :
  (forall v, Result.unwrap (Ok v) = Return v /\ Result.isOk (Ok v) = true) /\
  (forall e, exists t, Result.unwrap (Err e) = Throw t /\ instanceof_Error t = true) /\
  (forall e s, ToString e = Return s ->
     Result.unwrap (Err e)
     = Throw (newError ("Attempted to unwrap an 'Err' result: " ++ s))).
Proof.
  split; [| split].
  - intros v. split; reflexivity.
  - intros e. unfold Result.unwrap. simpl.
    destruct (ToString e) as [s|t] eqn:E; simpl.
    + eexists. split; reflexivity.
    + exists t. split; [reflexivity|]. now apply ToString_throws_TypeError in E.
  - intros e s H. unfold Result.unwrap. simpl. now rewrite H.
Qed.

(** [Err("boom").unwrap()] *)
Lemma unwrap_contract_witness :
  Result.unwrap (Err (VStr "boom"))
  = Throw (newError "Attempted to unwrap an 'Err' result: boom").
Proof.
  apply (proj2 (proj2 unwrap_contract) (VStr "boom") "boom"). reflexivity.
Defined.

(** C4: the code at the failing input.  The claim, like the method's own
    documentation, is that [unwrap] on a failure throws an error that
    carries the failure value as text.  On a failure that holds a symbol
    the template literal of line 336 refuses the symbol before
    [new Error] is reached, and what [unwrap] throws is that [TypeError],
    which carries no text of the failure value, although [String] has one
    for it. *)
Lemma unwrap_symbol_failure :
  Result.unwrap (Err (VSymbol "s"))
  = Throw (newTypeError "Cannot convert a Symbol value to a string")
  /\ String_ (VSymbol "s") = Return "Symbol(s)"
  /\ ~ (exists s, Result.unwrap (Err (VSymbol "s"))
                  = Throw (newError ("Attempted to unwrap an 'Err' result: " ++ s))).
Proof.
  split; [reflexivity | split; [reflexivity |]].
  intros [s H]. discriminate H.
Qed.

(** C5.  The wire form of a success, [{value: v, ok: true}], converts back
    to a Result that unwraps to [v]; [{error: s, ok: false}] converts to a
    failure that holds an [Error] whose message is [s], in particular for
    ["x"]; and a promise of either wire form converts to a promise of the
    same Result. *)
Theorem From_roundtrip :
  (forall v, exists r,
      Result.From (Now (SerializableOk v)) = Return (Now r)
      /\ Result.unwrap r = Return v) /\
  (forall s, exists r err,
      Result.From (Now (SerializableErr (VStr s))) = Return (Now r)
      /\ Result.isErr r = true /\ Result.isOk r = false
      /\ Result.unwrapErr r = Return err
      /\ instanceof_Error err = true
      /\ get_message err = VStr s) /\
  Result.From (Now (SerializableErr (VStr "x"))) = Return (Now (Err (newError "x"))) /\
  (forall v, Result.From (Later (Fulfilled (SerializableOk v)))
             = Return (Later (Fulfilled (Ok v)))) /\
  (forall s, Result.From (Later (Fulfilled (SerializableErr (VStr s))))
             = Return (Later (Fulfilled (Err (newError s))))).
Proof.
  split; [| split; [| split; [| split]]].
  - intros v. exists (Ok v). split; reflexivity.
  - intros s. exists (Err (newError s)), (newError s). repeat split.
  - reflexivity.
  - reflexivity.
  - reflexivity.
Qed.

(** C6.  For synchronous [f] and [g] the two groupings of [andThen] give
    the same completion: the same Result, or the same thrown value.  On a
    failure both give the failure back whatever [f] and [g] are, so
    neither is called. *)
Theorem andThen_assoc :
  (forall r f g, andThen_left r f g = andThen_right r f g) /\
  (forall e f g,
      andThen_left (Err e) f g = Return (Now (Err e))
      /\ andThen_right (Err e) f g = Return (Now (Err e))).
Proof.
  split.
  - intros r f g. unfold andThen_left, andThen_right, Result.andThen.
    destruct (isOk (outcome r)); [| reflexivity].
    unfold sync at 1. destruct (f (read (value (outcome r)))); reflexivity.
  - intros e f g. split; reflexivity.
Qed.

(** C7, as the code has it.  [map] with the identity gives back an equal
    Result when the success value is no promise, and gives a failure back
    unchanged whatever the transform is, so the transform is not applied;
    in both cases nothing that can be observed differs. *)
Theorem map_identity :
  (forall v, instanceof_Promise v = false ->
     Result.map (Ok v) identity = Return (Now (Ok v))) /\
  (forall e f, Result.map (Err e) f = Return (Now (Err e))) /\
  (forall r r', isOk (outcome r) = true ->
     instanceof_Promise (read (value (outcome r))) = false ->
     isErr (outcome r) = false ->
     Result.map r identity = Return (Now r') -> observe r' = observe r).
Proof.
  split; [| split].
  - intros v Hv. unfold Result.map, identity. simpl. plain_value v.
  - intros e f. reflexivity.
  - intros [o] r' Hok Hp Herr. unfold Result.map, identity. simpl in *.
    rewrite Hok. simpl.
    assert (E : forall v, instanceof_Promise v = false ->
                match v with
                | VPromise p => Return (Later (then_ p (fun v0 => Return (Ok v0))))
                | _ => Return (Now (Ok v))
                end = Return (Now (Ok v))) by (intros v Hv; plain_value v).
    rewrite (E _ Hp). intros [= <-].
    unfold observe, Result.isOk, Result.isErr, Result.unwrap, Result.unwrapErr.
    simpl. rewrite Hok, Herr. reflexivity.
Qed.

(** [Ok(5).map(x => x)] *)
Lemma map_identity_witness :
  Result.map (Ok (VNum 5)) identity = Return (Now (Ok (VNum 5)))
  /\ observe (Ok (VNum 5)) = observe (Ok (VNum 5)).
Proof.
  destruct map_identity as (H1 & _ & H3). split.
  - apply H1. reflexivity.
  - apply (H3 (Ok (VNum 5)) (Ok (VNum 5))); reflexivity.
Defined.

(** C7 as stated fails on a success that holds a promise: the identity
    hands the promise back, [map] takes that for an asynchronous
    transform, and the answer is a promise of a Result, not a Result. *)
Lemma map_identity_unwraps_promise :
  Result.map (Ok (VPromise (Fulfilled (VNum 1)))) identity
  = Return (Later (Fulfilled (Ok (VNum 1))))
  /\ Result.map (Ok (VPromise (Fulfilled (VNum 1)))) identity
     <> Return (Now (Ok (VPromise (Fulfilled (VNum 1))))).
Proof.
  split; [reflexivity | discriminate].
Qed.

(** ** The dispatcher *)

(** C8.  With a handler object that has [Some] and [None], an Option goes
    to [Some] with its value when it holds one and to [None] otherwise;
    with one that has [Ok] and [Err], a Result goes to [Ok] with its value
    on success and to [Err] with its error on failure; the two examples
    give [10] and [0]; and [match] throws the MatchError when the input is
    no wrapper, or when the handler object lacks the pair for the wrapper
    it is given. *)
Theorem match_dispatch (R : Type) :
  (forall o (m : Matcher R) onSome onNone,
      key_Some m = Some onSome -> key_None m = Some onNone ->
      match_ (InOption o) m
      = if Option.isSome o then onSome (this_value o) else onNone tt) /\
  (forall (m : Matcher R) onOk onErr,
      key_Ok m = Some onOk -> key_Err m = Some onErr ->
      (forall v, match_ (InResult (Ok v)) m = onOk v)
      /\ (forall e, match_ (InResult (Err e)) m = onErr e)) /\
  (match_ (InOption (Some_ (VNum 5))) example_matcher = Return (VNum 10)
   /\ match_ (InOption None_) example_matcher = Return (VNum 0)) /\
  (forall v (m : Matcher R), match_ (InOther v) m = Throw MatchError) /\
  (forall o (m : Matcher R), isOptionMatcher m = false ->
      match_ (InOption o) m = Throw MatchError) /\
  (forall r (m : Matcher R), isResultMatcher m = false ->
      match_ (InResult r) m = Throw MatchError).
Proof.
  split; [| split; [| split; [| split; [| split]]]].
  - intros o m onSome onNone HS HN. unfold match_, isOptionMatcher.
    rewrite HS, HN. simpl.
    unfold Option.isSome, Option.unwrap.
    destruct (isSome (this_value o)); reflexivity.
  - intros m onOk onErr HO HE. unfold match_, isResultMatcher.
    rewrite HO, HE. simpl. split; reflexivity.
  - split; reflexivity.
  - reflexivity.
  - intros o m H. unfold match_. rewrite H. reflexivity.
  - intros r m H. unfold match_. rewrite H. reflexivity.
Qed.

(** The dispatcher on [Some(5)] with the example's handlers, on [Err(7)]
    with a pair that hands its argument back, and on wrappers given the
    other family's handlers. *)
Lemma match_dispatch_witness :
  match_ (InOption (Some_ (VNum 5))) example_matcher = Return (VNum 10)
  /\ match_ (InResult (Err (VNum 7)))
            (mkMatcher None None (Some identity) (Some identity)) = Return (VNum 7)
  /\ match_ (InOption (Some_ (VNum 5)))
            (mkMatcher None None (Some identity) (Some identity)) = Throw MatchError
  /\ match_ (InResult (Ok (VNum 5))) example_matcher = Throw MatchError.
Proof.
  destruct (match_dispatch JsVal) as (H1 & H2 & _ & _ & H5 & H6).
  split; [| split; [| split]].
  - apply (H1 (Some_ (VNum 5)) example_matcher times_two (fun _ => Return (VNum 0)));
      reflexivity.
  - apply (H2 (mkMatcher None None (Some identity) (Some identity)) identity identity);
      reflexivity.
  - apply H5. reflexivity.
  - apply H6. reflexivity.
Defined.

(** ** Option *)

Lemma heap_get_set_same (h : Heap) (r : Ref) (o : Option) :
  (r < List.length h)%nat -> heap_get (heap_set h r o) r = Some o.
Proof.
  revert r. induction h as [| x rest IH]; intros [| r] Hr; simpl in *; try lia.
  - reflexivity.
  - apply IH. lia.
Qed.

Lemma heap_get_set_other (h : Heap) (r r' : Ref) (o : Option) :
  r' <> r -> heap_get (heap_set h r o) r' = heap_get h r'.
Proof.
  revert r r'. induction h as [| x rest IH]; intros [| r] [| r'] Hne; simpl;
    try reflexivity; try congruence.
  apply IH. congruence.
Qed.

Lemma heap_get_allocated (h : Heap) (r : Ref) (o : Option) :
  heap_get h r = Some o -> (r < List.length h)%nat.
Proof.
  intros H. apply nth_error_Some. unfold heap_get in H. congruence.
Qed.

(** C9.  [take] answers a new Option that holds what the receiver held and
    leaves the receiver absent; no other Option changes.  The receiver is
    any Option the constructor made, so an absent receiver gives an absent
    Option and a receiver that holds [v] gives an Option that unwraps to
    [v]. *)
Theorem take_moves_value (h : Heap) (this : Ref) (x : JsVal) :
  heap_get h this = Some (new_Option x) ->
  exists option h',
    Option.take this h = Some (option, h')
    /\ option <> this
    /\ heap_get h option = None
    /\ heap_get h' option = Some (new_Option x)
    /\ heap_get h' this = Some None_
    /\ Option.isNone None_ = true
    /\ (forall r, r <> this -> r <> option -> heap_get h' r = heap_get h r)
    /\ (if Option.isSome (new_Option x)
        then Option.unwrap (new_Option x) = Return x
        else new_Option x = None_).
Proof.
  intros Hthis. pose proof (heap_get_allocated _ _ _ Hthis) as Hlt.
  exists (List.length h), (heap_set (h ++ [new_Option x])%list this (mkOption VUndefined)).
  assert (Hsame : new_Option (this_value (new_Option x)) = new_Option x)
    by (destruct x; reflexivity).
  split; [| split; [| split; [| split; [| split; [| split; [| split]]]]]].
  - unfold Option.take. rewrite Hthis. unfold heap_new. now rewrite Hsame.
  - lia.
  - unfold heap_get. apply nth_error_None. lia.
  - rewrite heap_get_set_other by lia. unfold heap_get.
    rewrite nth_error_app2 by lia. now rewrite Nat.sub_diag.
  - apply heap_get_set_same. rewrite length_app. simpl. lia.
  - reflexivity.
  - intros r Hr Hr'. rewrite heap_get_set_other by assumption.
    unfold heap_get. destruct (Nat.lt_ge_cases r (List.length h)) as [Hl | Hl].
    + now rewrite nth_error_app1.
    + assert (List.length h < r)%nat by lia.
      transitivity (@None Option); [| symmetry]; apply nth_error_None;
        [rewrite length_app; simpl |]; lia.
  - destruct x; reflexivity.
Qed.

(** [take] on [Some(5)] beside an absent Option, and on the absent one. *)
Lemma take_moves_value_witness :
  (exists option h',
      Option.take 0%nat [Some_ (VNum 5); None_] = Some (option, h')
      /\ option <> 0%nat
      /\ heap_get [Some_ (VNum 5); None_] option = None
      /\ heap_get h' option = Some (Some_ (VNum 5))
      /\ heap_get h' 0%nat = Some None_
      /\ Option.isNone None_ = true
      /\ (forall r, r <> 0%nat -> r <> option ->
            heap_get h' r = heap_get [Some_ (VNum 5); None_] r)
      /\ Option.unwrap (Some_ (VNum 5)) = Return (VNum 5))
  /\ (exists option h',
      Option.take 1%nat [Some_ (VNum 5); None_] = Some (option, h')
      /\ option <> 1%nat
      /\ heap_get [Some_ (VNum 5); None_] option = None
      /\ heap_get h' option = Some None_
      /\ heap_get h' 1%nat = Some None_
      /\ Option.isNone None_ = true
      /\ (forall r, r <> 1%nat -> r <> option ->
            heap_get h' r = heap_get [Some_ (VNum 5); None_] r)
      /\ None_ = None_).
Proof.
  split.
  - apply (take_moves_value [Some_ (VNum 5); None_] 0%nat (VNum 5)). reflexivity.
  - apply (take_moves_value [Some_ (VNum 5); None_] 1%nat VUndefined). reflexivity.
Defined.

(** C10.  When an Option holds a value and the transform returns [null]
    or [undefined] for it, [map] answers at once an Option that is
    [isNone]. *)
Theorem map_collapses_absence (o : Option) (f : JsVal -> Completion JsVal) (r : JsVal) :
  Option.isSome o = true ->
  f (this_value o) = Return r ->
  r = VNull \/ r = VUndefined ->
  exists o', Option.map o f = Return (Now o')
             /\ Option.isNone o' = true
             /\ Option.isSome o' = false.
Proof.
  intros Hs Hf Hr. unfold Option.isSome in Hs. unfold Option.map.
  rewrite Hs, Hf. simpl.
  destruct Hr as [-> | ->]; exists (mkOption VUndefined); repeat split.
Qed.

(** [Some(1).map(() => null)] *)
Lemma map_collapses_absence_witness :
  exists o', Option.map (Some_ (VNum 1)) (fun _ => Return VNull) = Return (Now o')
             /\ Option.isNone o' = true
             /\ Option.isSome o' = false.
Proof.
  apply (map_collapses_absence (Some_ (VNum 1)) (fun _ => Return VNull) VNull);
    [reflexivity | reflexivity | left; reflexivity].
Defined.

(** * Further properties of the code *)

(** ** Result: the invariant and the combinators *)

Lemma one_slot_shape (o : Outcome) :
  one_slot o = true -> (exists v, o = OutcomeOk v) \/ (exists e, o = OutcomeErr e).
Proof.
  destruct o as [[v|] [e|] [k|]]; simpl; try discriminate; intros _.
  - left. now exists v.
  - right. now exists e.
Qed.

Lemma plain_classified (y : JsVal) (A : Type) (k : Promise JsVal -> A) (a : A) :
  instanceof_Promise y = false ->
  match y with VPromise p => k p | _ => a end = a.
Proof.
  destruct y; simpl; try reflexivity. discriminate.
Qed.



(** X2.  [Result.From] goes by the keys, not by the flag: an object with
    a [value] key is a success whatever [ok] and [error] say, and an
    object without it whose [ok] is [true] is a success that holds
    [undefined], its [error] dropped. *)
Theorem From_trusts_the_slot :
  (forall v e k, Result.From (Now (mkOutcome (Some v) e k)) = Return (Now (Ok v))) /\
  (forall e, Result.From (Now (mkOutcome None e (Some true)))
             = Return (Now (Ok VUndefined))).
Proof.
  split.
  - intros v e k. reflexivity.
  - intros e. reflexivity.
Qed.

(** X3.  [Result.From] on a promise never throws and hands back a
    promise: a rejection whose reason the normalizer turns into the
    string [s] settles to a failure that holds [new Error(s)]; a reason
    that it turns into [undefined] settles to a failure whose error has
    the empty message; a promise that stays pending stays pending. *)
Theorem From_promise :
  (forall p, exists q, Result.From (Later p) = Return (Later q)) /\
  (forall e s, convertErrorToString e = Return (VStr s) ->
     Result.From (Later (Rejected e)) = Return (Later (Fulfilled (Err (newError s))))) /\
  (forall e, convertErrorToString e = Return VUndefined ->
     Result.From (Later (Rejected e)) = Return (Later (Fulfilled (Err (newError ""))))) /\
  Result.From (Later NeverSettles) = Return (Later NeverSettles).
Proof.
  split; [| split; [| split]].
  - intros p. eexists. reflexivity.
  - intros e s H. simpl. now rewrite H.
  - intros e H. simpl. now rewrite H.
  - reflexivity.
Qed.

(** A promise rejected with [new Error("x")], and one rejected with
    [undefined]. *)
Lemma From_promise_witness :
  Result.From (Later (Rejected (newError "x")))
  = Return (Later (Fulfilled (Err (newError "x"))))
  /\ Result.From (Later (Rejected VUndefined))
     = Return (Later (Fulfilled (Err (newError "")))).
Proof.
  destruct From_promise as (_ & H2 & H3 & _). split.
  - apply H2. reflexivity.
  - apply H3. reflexivity.
Defined.

(** X4.  [map] composes: when [f] never hands back a promise,
    [r.map(f).map(g)] and [r.map(x => g(f(x)))] give the same completion,
    for every Result and every [g], also where [f] or [g] throws. *)
Theorem map_composes (r : Result) (f g : JsVal -> Completion JsVal) :
  plain_transform f ->
  map_twice r f g = Result.map r (compose f g).
Proof.
  intros Hf. unfold map_twice, Result.map, compose.
  destruct (isOk (outcome r)) eqn:Hok; [| simpl; now rewrite Hok].
  destruct (f (read (value (outcome r)))) as [y|t] eqn:E; [| reflexivity].
  simpl. rewrite (plain_classified y) by (eapply Hf; exact E).
  reflexivity.
Qed.

(** [Ok(5).map(x => x * 2).map(x => x * 2)] *)
Lemma map_composes_witness :
  map_twice (Ok (VNum 5)) times_two times_two
  = Result.map (Ok (VNum 5)) (compose times_two times_two).
Proof.
  apply map_composes. intros x y. destruct x; intros [= <-]; reflexivity.
Defined.

(** X5.  [map] and [mapErr] commute on a Result with one slot when
    neither transform hands back a promise: each touches its own slot
    only. *)
Theorem map_mapErr_commute (r : Result) (f g : JsVal -> Completion JsVal) :
  one_slot (outcome r) = true ->
  plain_transform f -> plain_transform g ->
  map_mapErr r f g = mapErr_map r f g.
Proof.
  intros Hr Hf Hg. destruct r as [o].
  destruct (one_slot_shape o Hr) as [[v ->] | [e ->]];
    unfold map_mapErr, mapErr_map, Result.map, Result.mapErr; simpl.
  - destruct (f v) as [y|t] eqn:E; [| reflexivity]. simpl.
    rewrite (plain_classified y) by (eapply Hf; exact E). reflexivity.
  - destruct (g e) as [y|t] eqn:E; [| reflexivity]. simpl.
    rewrite (plain_classified y) by (eapply Hg; exact E). reflexivity.
Qed.

(** [Err(5)] under [x => x * 2] on either side. *)
Lemma map_mapErr_commute_witness :
  map_mapErr (Err (VNum 5)) times_two times_two
  = mapErr_map (Err (VNum 5)) times_two times_two.
Proof.
  apply map_mapErr_commute;
    [reflexivity | |]; intros x y; destruct x; intros [= <-]; reflexivity.
Defined.

(** X6.  [and] is a success exactly when both Results are, [or] exactly
    when one of them is; [and] on a failure gives a failure with the same
    error, and [or] on a success gives a success with the same value. *)
Theorem and_or_laws (this other : Result) :
  Result.isOk (Result.and this other) = Result.isOk this && Result.isOk other
  /\ Result.isOk (Result.or this other) = Result.isOk this || Result.isOk other
  /\ (if Result.isOk this
      then Result.and this other = other
           /\ Result.or this other = Ok (read (value (outcome this)))
      else Result.and this other = Err (read (error (outcome this)))
           /\ Result.or this other = other).
Proof.
  unfold Result.and, Result.or, Result.isOk.
  destruct (isOk (outcome this)) eqn:E; simpl; rewrite ?E; repeat split.
Qed.

(** X7.  The identities of [andThen]: on [Ok(v)] it is the call [f(v)];
    with [Ok] as the transform it gives back a Result with one slot as it
    was; and [and] is [andThen] with a transform that ignores its
    argument, as [or] is [orElse]. *)
Theorem andThen_identities :
  (forall v f, Result.andThen (Ok v) f = f v) /\
  (forall r, one_slot (outcome r) = true ->
     Result.andThen r (fun x => Return (Now (Ok x))) = Return (Now r)) /\
  (forall r other,
     Result.andThen r (fun _ => Return (Now other)) = Return (Now (Result.and r other))
     /\ Result.orElse r (fun _ => Return (Now other)) = Return (Now (Result.or r other))).
Proof.
  split; [| split].
  - reflexivity.
  - intros [o] H. simpl in H.
    destruct (one_slot_shape o H) as [[v ->] | [e ->]]; reflexivity.
  - intros r other. unfold Result.andThen, Result.orElse, Result.and, Result.or.
    destruct (isOk (outcome r)); split; reflexivity.
Qed.

(** [Err(1).andThen(Ok)] *)
Lemma andThen_identities_witness :
  Result.andThen (Err (VNum 1)) (fun x => Return (Now (Ok x)))
  = Return (Now (Err (VNum 1))).
Proof.
  apply (proj1 (proj2 andThen_identities)). reflexivity.
Defined.

(** X8.  [orElse] is associative for synchronous [f] and [g], and a
    success passes through both groupings whatever [f] and [g] are; on a
    failure it is the call [f(e)]. *)
Theorem orElse_assoc :
  (forall r f g, orElse_left r f g = orElse_right r f g) /\
  (forall v f g,
     orElse_left (Ok v) f g = Return (Now (Ok v))
     /\ orElse_right (Ok v) f g = Return (Now (Ok v))) /\
  (forall e f, Result.orElse (Err e) f = f e).
Proof.
  split; [| split].
  - intros r f g. unfold orElse_left, orElse_right, Result.orElse.
    destruct (isOk (outcome r)); [reflexivity|].
    unfold sync at 1. destruct (f (read (error (outcome r)))); reflexivity.
  - intros v f g. split; reflexivity.
  - reflexivity.
Qed.

(** X9.  [expect], [unwrapOr] and [unwrapOrElse] are [unwrap] with its
    failure replaced: where [unwrap] returns [v] they give [v], and where
    it throws, [expect] throws [new Error(message)] whatever the failure
    value is, [unwrapOr] gives the default, and [unwrapOrElse] is the call
    of its function on the error. *)
Theorem unwrap_family (r : Result) (message : string) (d : JsVal)
    (h : JsVal -> Completion JsVal) :
  match Result.unwrap r with
  | Return v =>
      Result.expect r message = Return v
      /\ Result.unwrapOr r d = v
      /\ Result.unwrapOrElse r h = Return v
  | Throw _ =>
      Result.expect r message = Throw (newError message)
      /\ Result.unwrapOr r d = d
      /\ Result.unwrapOrElse r h = h (read (error (outcome r)))
  end.
Proof.
  unfold Result.unwrap, Result.expect, Result.unwrapOr, Result.unwrapOrElse.
  destruct (isOk (outcome r)).
  - repeat split.
  - destruct (ToString (read (error (outcome r)))); simpl; repeat split.
Qed.

(** X10.  On a Result with one slot exactly one of [unwrap] and
    [unwrapErr] returns: a success gives its value and [unwrapErr] throws
    its fixed error; a failure gives its error and [unwrap] throws. *)
Theorem unwrap_xor_unwrapErr (r : Result) :
  one_slot (outcome r) = true ->
  (exists v, r = Ok v
             /\ Result.unwrap r = Return v
             /\ Result.unwrapErr r
                = Throw (newError "Attempted to unwrap `Err` from an `Ok` result."))
  \/ (exists e t, r = Err e
                  /\ Result.unwrapErr r = Return e
                  /\ Result.unwrap r = Throw t).
Proof.
  destruct r as [o]. simpl. intros H.
  destruct (one_slot_shape o H) as [[v ->] | [e ->]].
  - left. exists v. repeat split.
  - right. unfold Result.unwrap, Result.unwrapErr. simpl.
    destruct (ToString e) as [s|t]; simpl; exists e; eexists; repeat split.
Qed.

(** [Ok(1)] and [Err(2)] *)
Lemma unwrap_xor_unwrapErr_witness :
  ((exists v, Ok (VNum 1) = Ok v
              /\ Result.unwrap (Ok (VNum 1)) = Return v
              /\ Result.unwrapErr (Ok (VNum 1))
                 = Throw (newError "Attempted to unwrap `Err` from an `Ok` result."))
   \/ (exists e t, Ok (VNum 1) = Err e
                   /\ Result.unwrapErr (Ok (VNum 1)) = Return e
                   /\ Result.unwrap (Ok (VNum 1)) = Throw t)).
Proof.
  apply unwrap_xor_unwrapErr. reflexivity.
Defined.

(** X11.  [isOkAnd] is [map] followed by [unwrapOr(false)] for a
    predicate that hands back no promise: the predicate sees the success
    value, and on a failure the answer is [false] without calling it;
    [isErrAnd] is the same on the other slot. *)
Theorem isOkAnd_is_map (r : Result) (p : JsVal -> Completion JsVal) :
  plain_transform p ->
  Result.isOkAnd r p = map_unwrapOr_false r p
  /\ (Result.isOk r = false -> Result.isOkAnd r p = Return (VBool false))
  /\ (Result.isErr r = false -> Result.isErrAnd r p = Return (VBool false)).
Proof.
  intros Hp. unfold Result.isOkAnd, Result.isErrAnd, map_unwrapOr_false,
    Result.map, Result.isOk, Result.isErr, Result.unwrapOr.
  split; [| split].
  - destruct (isOk (outcome r)) eqn:Hok.
    + destruct (p (read (value (outcome r)))) as [y|t] eqn:E; [| reflexivity].
      simpl. rewrite (plain_classified y) by (eapply Hp; exact E). reflexivity.
    + simpl. now rewrite Hok.
  - intros ->. reflexivity.
  - intros ->. reflexivity.
Qed.

(** [Err(5).isOkAnd(x => x * 2)] and [Ok(5).isErrAnd(x => x * 2)] *)
Lemma isOkAnd_is_map_witness :
  Result.isOkAnd (Err (VNum 5)) times_two = Return (VBool false)
  /\ Result.isErrAnd (Ok (VNum 5)) times_two = Return (VBool false).
Proof.
  assert (H : plain_transform times_two)
    by (intros x y; destruct x; intros [= <-]; reflexivity).
  split.
  - apply (proj1 (proj2 (isOkAnd_is_map (Err (VNum 5)) times_two H))). reflexivity.
  - apply (proj2 (proj2 (isOkAnd_is_map (Ok (VNum 5)) times_two H))). reflexivity.
Defined.

(** ** Builders and the tuple bridge *)

(** X12.  [buildResult], [goify] and [goifySync] never throw, whatever the
    operation does, and the promise that [buildResult] or [goify] hands
    back is never rejected. *)
Theorem builders_never_throw (operation : unit -> Completion JsVal) :
  (exists m, buildResult operation = Return m
             /\ match m with Later p => not_rejected p = true | Now _ => True end) /\
  (exists m, goify operation = Return m
             /\ match m with Later p => not_rejected p = true | Now _ => True end) /\
  (exists t, goifySync operation = Return t).
Proof.
  unfold buildResult, goify, goifySync.
  destruct (operation tt) as [y|e]; simpl.
  - split; [| split].
    + destruct y; try (eexists; split; [reflexivity | exact I]).
      destruct p; eexists; (split; [reflexivity | reflexivity]).
    + destruct y; try (eexists; split; [reflexivity | exact I]).
      destruct p; eexists; (split; [reflexivity | reflexivity]).
    + eexists. reflexivity.
  - split; [| split]; eexists; try split; try reflexivity; exact I.
Qed.

(** X13.  What [buildSerializableOutcome] hands back, at once or as the
    value of its promise, has one slot and the flag that goes with it; on
    such an object [isOk] is the flag and [isErr] its negation. *)
Theorem buildSerializableOutcome_wire_form :
  (forall operation m, buildSerializableOutcome operation = Return m ->
     match m with
     | Now o => wire_form o = true
     | Later (Fulfilled o) => wire_form o = true
     | Later _ => True
     end) /\
  (forall o, wire_form o = true ->
     ok o = Some (isOk o) /\ isErr o = negb (isOk o)).
Proof.
  split.
  - intros operation m. unfold buildSerializableOutcome.
    destruct (operation tt) as [y|e]; simpl.
    + destruct y; try (intros [= <-]; reflexivity).
      destruct p as [v|e|]; simpl.
      * intros [= <-]. reflexivity.
      * destruct (convertErrorToString e) as [s|t]; simpl;
          intros [= <-]; [reflexivity | exact I].
      * intros [= <-]. exact I.
    + destruct (convertErrorToString e) as [s|t]; simpl; [| discriminate].
      intros [= <-]. reflexivity.
  - intros [[v|] [e|] [[|]|]]; simpl; try discriminate; intros _; split; reflexivity.
Qed.

(** The builder on an operation that throws [new Error("x")]. *)
Lemma buildSerializableOutcome_wire_form_witness :
  wire_form (SerializableErr (VStr "x")) = true
  /\ (ok (SerializableErr (VStr "x")) = Some (isOk (SerializableErr (VStr "x")))
      /\ isErr (SerializableErr (VStr "x")) = negb (isOk (SerializableErr (VStr "x")))).
Proof.
  destruct buildSerializableOutcome_wire_form as (H1 & H2). split.
  - apply (H1 (fun _ => Throw (newError "x")) (Now (SerializableErr (VStr "x")))).
    reflexivity.
  - apply H2. reflexivity.
Defined.

(** X14.  Going through the wire form and back is [buildResult] for every
    operation whose failures are errors made by [new Error]: a returned
    value, a fulfilled promise, a thrown or rejected [new Error(m)] and a
    promise that stays pending all give the same answer on both paths. *)
Theorem through_the_wire_is_buildResult (operation : unit -> Completion JsVal) :
  fails_with_new_Error operation ->
  through_the_wire operation = buildResult operation.
Proof.
  unfold fails_with_new_Error, through_the_wire, buildSerializableOutcome, buildResult.
  destruct (operation tt) as [y|e]; simpl.
  - destruct y; try (intros _; reflexivity).
    destruct p as [v|e|]; simpl; try (intros _; reflexivity).
    intros [m ->]. reflexivity.
  - intros [m ->]. reflexivity.
Qed.

(** An operation that throws [new Error("x")]. *)
Lemma through_the_wire_is_buildResult_witness :
  through_the_wire (fun _ => Throw (newError "x"))
  = buildResult (fun _ => Throw (newError "x")).
Proof.
  apply through_the_wire_is_buildResult. exists "x". reflexivity.
Defined.

(** X15.  The tuple of [goifySync] tells what the operation did, except
    for [null]: two operations give the same tuple only if they completed
    the same way or the tuple is [[null, null]], which is what both a
    returned and a thrown [null] give. *)
Theorem goifySync_tuple_tells (op1 op2 : unit -> Completion JsVal) :
  goifySync op1 = goifySync op2 ->
  op1 tt = op2 tt \/ goifySync op1 = Return (VNull, VNull).
Proof.
  unfold goifySync.
  destruct (op1 tt) as [v1|e1], (op2 tt) as [v2|e2]; simpl; intros H;
    inversion H; subst; auto.
Qed.

(** Returning [null] and throwing [null]. *)
Lemma goifySync_tuple_tells_witness :
  (fun _ : unit => Return VNull) tt = (fun _ : unit => @Throw JsVal VNull) tt
  \/ goifySync (fun _ => Return VNull) = Return (VNull, VNull).
Proof.
  apply (goifySync_tuple_tells (fun _ => Return VNull) (fun _ => Throw VNull)).
  reflexivity.
Defined.

(** ** Option *)

Lemma heap_set_Forall (P : Option -> Prop) (h : Heap) (r : Ref) (o : Option) :
  Forall P h -> P o -> Forall P (heap_set h r o).
Proof.
  intros Hh Ho. revert r. induction Hh as [| x rest Hx Hrest IH]; intros [| r];
    simpl; constructor; auto.
Qed.

(** X16.  No Option ever holds [null]: the constructor stores a value only
    when it is neither [null] nor [undefined], so [isSome] of a new Option
    says exactly that; what [map] hands back, and [and], [or] and [xor] of
    Options that satisfy it, satisfy it; and [take] keeps it for every
    object of the heap. *)
Theorem Option_never_holds_null :
  (forall v, made (new_Option v) = true
             /\ Option.isSome (new_Option v) = negb (is_undefined v || is_null v)) /\
  (forall o f r, Option.map o f = Return (Now r) -> made r = true) /\
  (forall a b, made a = true -> made b = true ->
     made (Option.and a b) = true
     /\ made (Option.or a b) = true
     /\ made (Option.xor a b) = true) /\
  (forall h this r h',
     Forall (fun o => made o = true) h ->
     Option.take this h = Some (r, h') ->
     Forall (fun o => made o = true) h').
Proof.
  split; [| split; [| split]].
  - intros v. destruct v; split; reflexivity.
  - intros o f r. unfold Option.map.
    destruct (isSome (this_value o)).
    + destruct (f (this_value o)) as [y|t]; simpl; [| discriminate].
      destruct y; intros [= <-]; reflexivity.
    + intros [= <-]. reflexivity.
  - intros a b Ha Hb. unfold Option.and, Option.or, Option.xor.
    destruct (isSome (this_value a)) eqn:E; unfold Option.isSome; rewrite ?E;
      destruct (isSome (this_value b)); simpl; repeat split; assumption.
  - intros h this r h' Hh. unfold Option.take.
    destruct (heap_get h this) as [self|]; [| discriminate].
    simpl. intros [= <- <-]. apply heap_set_Forall; [| reflexivity].
    apply Forall_app. split; [exact Hh|].
    constructor; [| constructor]. destruct (this_value self); reflexivity.
Qed.

(** [take] on a heap of two Options, and the three combinations of
    [Some(1)] and [None()]. *)
Lemma Option_never_holds_null_witness :
  (made (Option.and (Some_ (VNum 1)) None_) = true
   /\ made (Option.or (Some_ (VNum 1)) None_) = true
   /\ made (Option.xor (Some_ (VNum 1)) None_) = true)
  /\ Forall (fun o => made o = true) [None_; None_; Some_ (VNum 5)]
  /\ made (new_Option VNull) = true.
Proof.
  destruct Option_never_holds_null as (_ & H2 & H3 & H4).
  split; [| split].
  - apply H3; reflexivity.
  - apply (H4 [Some_ (VNum 5); None_] 0%nat 2%nat).
    + repeat constructor.
    + reflexivity.
  - apply (H2 (Some_ (VNum 1)) (fun _ => Return VNull)). reflexivity.
Defined.

(** X17.  Presence under [and] and [or]: [and] holds a value exactly when
    both do and is then the argument; [or] holds one exactly when one of
    them does and is the receiver when the receiver holds one. *)
Theorem Option_and_or_laws (a b : Option) :
  Option.isSome (Option.and a b) = Option.isSome a && Option.isSome b
  /\ Option.isSome (Option.or a b) = Option.isSome a || Option.isSome b
  /\ Option.and a b = (if Option.isSome a then b else None_)
  /\ Option.or a b = (if Option.isSome a then a else b).
Proof.
  unfold Option.and, Option.or, Option.isSome.
  destruct (isSome (this_value a)) eqn:E; simpl; rewrite ?E; repeat split.
Qed.

(** X18.  [xor] holds a value exactly when one of the two Options does and
    the other does not, and is then the one that does; otherwise it is
    [None()]. *)
Theorem Option_xor_law (a b : Option) :
  Option.isSome (Option.xor a b) = xorb (Option.isSome a) (Option.isSome b)
  /\ Option.xor a b
     = (if xorb (Option.isSome a) (Option.isSome b)
        then (if Option.isSome a then a else b)
        else None_).
Proof.
  unfold Option.xor.
  destruct (Option.isSome a) eqn:Ea, (Option.isSome b) eqn:Eb; simpl;
    rewrite ?Ea, ?Eb; split; reflexivity.
Qed.

(** X19.  [map] composes when [f] hands back neither a promise nor [null]
    nor [undefined]: [o.map(f).map(g)] and [o.map(x => g(f(x)))] give the
    same completion.  Without that condition it does not: with [f]
    handing back [null] the first is [None()] and the second holds what
    [g] makes of [null]. *)
Theorem Option_map_composes :
  (forall o f g, present_transform f ->
     Option_map_twice o f g = Option.map o (compose f g)) /\
  (Option_map_twice (Some_ (VNum 1)) (fun _ => Return VNull) (fun _ => Return (VNum 2))
   = Return (Now None_)
   /\ Option.map (Some_ (VNum 1))
                 (compose (fun _ => Return VNull) (fun _ => Return (VNum 2)))
      = Return (Now (Some_ (VNum 2)))).
Proof.
  split; [| split; reflexivity].
  intros o f g Hf. unfold Option_map_twice, Option.map, compose.
  destruct (isSome (this_value o)) eqn:Ho; [| reflexivity].
  destruct (f (this_value o)) as [y|t] eqn:E; [| reflexivity].
  destruct (Hf _ _ E) as (Hp & Hn & Hu). simpl.
  rewrite (plain_classified y) by exact Hp. simpl.
  unfold new_Option. rewrite Hn, Hu. simpl. unfold isSome. rewrite Hu. reflexivity.
Qed.

(** [Some(5).map(x => x * 2).map(x => x * 2)] with the product taken on
    numbers. *)
Lemma Option_map_composes_witness :
  Option_map_twice (Some_ (VNum 5))
     (fun x => match x with VNum n => Return (VNum (n * 2)) | _ => Return (VNum 0) end)
     times_two
  = Option.map (Some_ (VNum 5))
     (compose (fun x => match x with VNum n => Return (VNum (n * 2)) | _ => Return (VNum 0) end)
              times_two).
Proof.
  apply (proj1 Option_map_composes).
  intros x y. destruct x; intros [= <-]; repeat split.
Defined.

(** X20.  [okOr] is a success exactly when the Option holds a value, and
    then unwraps to that value; otherwise it is the failure that holds
    the given error.  [okOrElse] is [okOr] with the error computed on
    demand: its function is not called when a value is held, and what the
    function throws is thrown. *)
Theorem okOr_laws (o : Option) (e : JsVal) (f : unit -> Completion JsVal) :
  Result.isOk (Option.okOr o e) = Option.isSome o
  /\ (if Option.isSome o
      then Option.okOr o e = Ok (this_value o)
           /\ Option.okOrElse o f = Return (Ok (this_value o))
      else Option.okOr o e = Err e
           /\ Option.okOrElse o f = (x <- f tt ;; Return (Err x))).
Proof.
  unfold Option.okOr, Option.okOrElse, Option.isSome.
  destruct (isSome (this_value o)); repeat split.
Qed.

(** X21.  Dispatching on [o.okOr(e)] with [{Ok, Err}] is dispatching on
    [o] with [{Some, None}]: the [Ok] handler plays [Some] and the [Err]
    handler, its argument ignored, plays [None]. *)
Theorem match_okOr (R : Type) (o : Option) (e : JsVal)
    (onSome : JsVal -> Completion R) (onNone : unit -> Completion R) :
  match_ (InResult (Option.okOr o e)) (Result_handlers onSome onNone)
  = match_ (InOption o) (Option_handlers onSome onNone).
Proof.
  unfold match_, Option.okOr, Option.isSome, Option.unwrap. simpl.
  destruct (isSome (this_value o)); reflexivity.
Qed.

(** X22.  The identities of [andThen] on Options: on an Option that holds
    [v] it is the call [f(v)]; with [Some] as the transform it gives back
    an Option that never held [null] as it was; and [and] is [andThen]
    with a transform that ignores its argument. *)
Theorem Option_andThen_identities :
  (forall o f, Option.isSome o = true -> Option.andThen o f = f (this_value o)) /\
  (forall o, made o = true ->
     Option.andThen o (fun x => Return (Now (Some_ x))) = Return (Now o)) /\
  (forall a b,
     Option.andThen a (fun _ => Return (Now b)) = Return (Now (Option.and a b))).
Proof.
  split; [| split].
  - intros o f H. unfold Option.andThen. unfold Option.isSome in H. now rewrite H.
  - intros [v] H. unfold Option.andThen. simpl.
    destruct v; simpl in *; try reflexivity. discriminate.
  - intros a b. unfold Option.andThen, Option.and.
    destruct (isSome (this_value a)); reflexivity.
Qed.

(** [Some(5).andThen(Some)] *)
Lemma Option_andThen_identities_witness :
  Option.andThen (Some_ (VNum 5)) (fun x => Return (Now (Some_ x)))
  = Return (Now (Some_ (VNum 5)))
  /\ Option.andThen (Some_ (VNum 5)) (fun x => Return (Now (Some_ x)))
     = Return (Now (Some_ (VNum 5))).
Proof.
  destruct Option_andThen_identities as (H1 & H2 & _). split.
  - apply (H1 (Some_ (VNum 5))). reflexivity.
  - apply H2. reflexivity.
Defined.

(** X23.  [expect], [unwrapOr] and [unwrapOrElse] of an Option are
    [unwrap] with its failure replaced, and dispatching with the
    identity for [Some] is [unwrapOrElse] with the [None] handler. *)
Theorem Option_unwrap_family (o : Option) (message : string) (d : JsVal)
    (f : unit -> Completion JsVal) :
  match Option.unwrap o with
  | Return v =>
      Option.expect o message = Return v
      /\ Option.unwrapOr o d = v
      /\ Option.unwrapOrElse o f = Return v
  | Throw t =>
      t = newError "Attempted to unwrap a 'None' Option. No value is present."
      /\ Option.expect o message = Throw (newError message)
      /\ Option.unwrapOr o d = d
      /\ Option.unwrapOrElse o f = f tt
  end
  /\ match_ (InOption o) (Option_handlers identity f) = Option.unwrapOrElse o f.
Proof.
  unfold match_, Option.unwrap, Option.expect, Option.unwrapOr,
    Option.unwrapOrElse, Option.isSome. simpl.
  destruct (isSome (this_value o)); repeat split.
Qed.

(** ** The normalizer's result *)

Lemma SerializeJSONProperty_undefined (v : JsVal) :
  SerializeJSONProperty v = Return None ->
  v = VUndefined \/ exists d, v = VSymbol d.
Proof.
  destruct v as [ | | [|] | n | n | s | d | c m | p props | p ]; simpl;
    try discriminate; auto.
  - intros _. right. now exists d.
  - match goal with |- context [bind ?m _] => destruct m end; discriminate.
Qed.

(** X24.  On the values of the fragment, that is [undefined], [null],
    booleans, integers, BigInts, strings, symbols, error objects with a
    string message, promises, and objects with or without prototype whose
    own properties are data properties holding such values: what the
    normalizer returns is a string, except for [undefined] and for a
    symbol, where it is [undefined], the answer of [JSON.stringify] for a
    value that has no JSON text. *)
Theorem convertErrorToString_result :
  (forall v r, convertErrorToString v = Return r ->
     (exists s, r = VStr s)
     \/ (r = VUndefined /\ (v = VUndefined \/ exists d, v = VSymbol d))) /\
  convertErrorToString VUndefined = Return VUndefined /\
  (forall d, convertErrorToString (VSymbol d) = Return VUndefined).
Proof.
  split; [| split; reflexivity].
  intros v r. unfold convertErrorToString.
  destruct (String.eqb (typeof v) "string") eqn:E1.
  { rewrite typeof_is_string in E1. destruct v; try discriminate.
    intros [= <-]. left. now eexists. }
  destruct (instanceof_Error v) eqn:E2.
  { destruct v; try discriminate. intros [= <-]. left. now eexists. }
  destruct (String.eqb (typeof v) "object" && negb (is_null v) && in_message v
            && String.eqb (typeof (get_message v)) "string") eqn:E3.
  { destruct (third_test_is_string_message v E2 E3) as (m & _ & Hm).
    rewrite Hm. intros [= <-]. left. now eexists. }
  unfold JSON_stringify.
  destruct (SerializeJSONProperty v) as [[t|]|e] eqn:E4; simpl.
  - intros [= <-]. left. now eexists.
  - intros [= <-]. right. split; [reflexivity|].
    now apply SerializeJSONProperty_undefined.
  - destruct (String_ v) as [s|t]; simpl; [| discriminate].
    intros [= <-]. left. now eexists.
Qed.

(** The normalizer on [42]. *)
Lemma convertErrorToString_result_witness :
  (exists s, VStr "42" = VStr s)
  \/ (VStr "42" = VUndefined /\ (VNum 42 = VUndefined \/ exists d, VNum 42 = VSymbol d)).
Proof.
  apply (proj1 convertErrorToString_result (VNum 42)). reflexivity.
Defined.

(** ** The earlier generation *)

(** X25.  The two generations of [goify] agree on every operation that
    throws, returns a promise, or returns a value of the fragment, none of
    which is a thenable: the promise of the asynchronous one settles as an
    [await] of the current one does. *)
Theorem goify_generations_agree (operation : unit -> Completion JsVal) :
  Legacy.goify operation = settled (goify operation).
Proof.
  unfold Legacy.goify, goify, settled, awaited, async_try.
  destruct (operation tt) as [y|e]; simpl; [| reflexivity].
  destruct y; try reflexivity. destruct p; reflexivity.
Qed.

(** X26.  The earlier [buildResult] hands back a promise that is never
    rejected and that is fulfilled only with an object of one slot; when
    the normalizer throws on the failure, the promise stays pending for
    ever, as that of [buildSafeResult] does; and [buildSafeResult] is
    [SafeResult.From] of [buildResult]. *)
Theorem Legacy_buildResult_settles (operation : unit -> Completion JsVal) :
  not_rejected (Legacy.buildResult operation) = true
  /\ (forall o, Legacy.buildResult operation = Fulfilled o -> one_slot o = true)
  /\ (forall e t, awaited (operation tt) = Rejected e ->
        convertErrorToString e = Throw t ->
        Legacy.buildResult operation = NeverSettles
        /\ Legacy.buildSafeResult operation = NeverSettles)
  /\ Legacy.buildSafeResult operation
     = Legacy.SafeResult.From (Later (Legacy.buildResult operation)).
Proof.
  unfold Legacy.buildResult, Legacy.buildSafeResult, Legacy.SafeResult.From,
    executor_try, async_try, awaited_wrapper.
  destruct (awaited (operation tt)) as [v|e|]; simpl.
  - split; [reflexivity|]. split; [intros o [= <-]; reflexivity|].
    split; [discriminate | reflexivity].
  - destruct (convertErrorToString e) as [s|t] eqn:E; simpl.
    + split; [reflexivity|]. split; [intros o [= <-]; reflexivity|].
      split; [| reflexivity]. intros e0 t [= <-]. congruence.
    + split; [reflexivity|]. split; [discriminate|].
      split; [| reflexivity]. intros e0 t0 _ _. split; reflexivity.
  - split; [reflexivity|]. split; [discriminate|].
    split; [discriminate | reflexivity].
Qed.

(** An operation that throws the object on which the normalizer throws,
    and one that throws [new Error("x")]. *)
Lemma Legacy_buildResult_settles_witness :
  (Legacy.buildResult (fun _ => Throw bare_object_with_bigint) = NeverSettles
   /\ Legacy.buildSafeResult (fun _ => Throw bare_object_with_bigint) = NeverSettles)
  /\ one_slot (OutcomeErr (VStr "x")) = true.
Proof.
  split.
  - apply (proj1 (proj2 (proj2
             (Legacy_buildResult_settles (fun _ => Throw bare_object_with_bigint))))
             bare_object_with_bigint
             (newTypeError "Cannot convert object to primitive value"));
      reflexivity.
  - apply (proj1 (proj2
             (Legacy_buildResult_settles (fun _ => Throw (newError "x"))))).
    reflexivity.
Defined.

(** X27.  The earlier [match] never throws and gives a tuple: the value
    and [null] for an Option or SafeResult that holds one; [null] and
    [new Error("Option is None")] for an absent Option; [null] and the
    error that [unwrap] throws, whose message ends in the failure text,
    for a failed SafeResult; and [null] with a fixed error for anything
    else. *)
Theorem Legacy_match_tuple :
  (forall input, exists t, Legacy.match_ input = Return t) /\
  (forall o, Legacy.match_ (Legacy.InOption o)
             = Return (if Legacy.Option.isSome o then (this_value o, VNull)
                       else (VNull, newError "Option is None"))) /\
  (forall r, Legacy.isOk (result r) = true ->
     Legacy.match_ (Legacy.InSafeResult r) = Return (read (value (result r)), VNull)) /\
  (forall e s, ToString e = Return s ->
     Legacy.match_ (Legacy.InSafeResult (mkSafeResult (OutcomeErr e)))
     = Return (VNull, newError ("Attempted to unwrap an 'Err' result: " ++ s))) /\
  (forall v, Legacy.match_ (Legacy.InOther v)
             = Return (VNull, newError "Unhandled input type for match function.")).
Proof.
  unfold Legacy.match_, goifySync.
  split; [| split; [| split; [| split]]].
  - intros input. destruct (Legacy.match_body input); simpl; eexists; reflexivity.
  - intros o. unfold Legacy.match_body, Legacy.Option.expect, Legacy.Option.isSome.
    destruct (isSome (this_value o)); reflexivity.
  - intros r H. unfold Legacy.match_body, Legacy.SafeResult.unwrap. now rewrite H.
  - intros e s H. unfold Legacy.match_body, Legacy.SafeResult.unwrap. simpl.
    now rewrite H.
  - reflexivity.
Qed.

(** The earlier [match] on a success and on the failure ["boom"]. *)
Lemma Legacy_match_tuple_witness :
  Legacy.match_ (Legacy.InSafeResult (mkSafeResult (OutcomeOk (VNum 1))))
  = Return (VNum 1, VNull)
  /\ Legacy.match_ (Legacy.InSafeResult (mkSafeResult (OutcomeErr (VStr "boom"))))
     = Return (VNull, newError "Attempted to unwrap an 'Err' result: boom").
Proof.
  destruct Legacy_match_tuple as (_ & _ & H3 & H4 & _). split.
  - apply (H3 (mkSafeResult (OutcomeOk (VNum 1)))). reflexivity.
  - apply (H4 (VStr "boom") "boom"). reflexivity.
Defined.

(** X28.  The earlier Option stores [null] as a value: an Option of [v]
    holds a value exactly when [v] is not [undefined]; it is the Option
    that the current constructor makes whenever [v] is not [null]; and
    [map] with a transform that hands back [null] holds [null], where the
    current [map] is absent. *)
Theorem Legacy_Option_keeps_null :
  (forall v, Legacy.Option.isSome (Legacy.new_Option v) = negb (is_undefined v)) /\
  (forall v, is_null v = false -> Legacy.new_Option v = new_Option v) /\
  (forall o f, Legacy.Option.isSome o = true -> f (this_value o) = Return VNull ->
     Legacy.Option.map o f = Return (Legacy.Some_ VNull)
     /\ Legacy.Option.isSome (Legacy.Some_ VNull) = true
     /\ Option.map o f = Return (Now None_)).
Proof.
  split; [| split].
  - intros v. reflexivity.
  - intros v H. destruct v; try reflexivity. discriminate.
  - intros o f Ho Hf. unfold Legacy.Option.map, Option.map.
    unfold Legacy.Option.isSome in Ho. rewrite Ho, Hf. repeat split.
Qed.

(** [Some(1).map(() => null)] in both generations. *)
Lemma Legacy_Option_keeps_null_witness :
  Legacy.new_Option (VNum 1) = new_Option (VNum 1)
  /\ (Legacy.Option.map (Legacy.Some_ (VNum 1)) (fun _ => Return VNull)
      = Return (Legacy.Some_ VNull)
      /\ Legacy.Option.isSome (Legacy.Some_ VNull) = true
      /\ Option.map (Legacy.Some_ (VNum 1)) (fun _ => Return VNull)
         = Return (Now None_)).
Proof.
  destruct Legacy_Option_keeps_null as (_ & H2 & H3). split.
  - apply H2. reflexivity.
  - apply H3; reflexivity.
Defined.

(** X29.  [matchAsync] is never rejected; on a promise fulfilled with a
    wrapper it settles to the tuple that [match] gives, provided the
    value in the tuple is no promise; and on a rejected promise it
    settles to [null] and the reason. *)
Theorem Legacy_matchAsync :
  (forall p, not_rejected (Legacy.matchAsync p) = true) /\
  (forall input t, Legacy.match_ input = Return t ->
     instanceof_Promise (fst t) = false ->
     Legacy.matchAsync (Fulfilled input) = Fulfilled t) /\
  (forall e, Legacy.matchAsync (Rejected e) = Fulfilled (VNull, e)).
Proof.
  unfold Legacy.matchAsync, Legacy.goify, Legacy.match_, goifySync, async_try.
  split; [| split].
  - intros [input|e|]; simpl; try reflexivity.
    destruct (Legacy.match_body input) as [v|e]; simpl; [| reflexivity].
    destruct v; try reflexivity. destruct p; reflexivity.
  - intros input t. simpl.
    destruct (Legacy.match_body input) as [v|e]; simpl; intros [= <-]; simpl.
    + intros H. destruct v; simpl in *; try reflexivity. discriminate H.
    + intros _. reflexivity.
  - reflexivity.
Qed.

(** [matchAsync] on a promise of [Some(1)]. *)
Lemma Legacy_matchAsync_witness :
  Legacy.matchAsync (Fulfilled (Legacy.InOption (Legacy.Some_ (VNum 1))))
  = Fulfilled (VNum 1, VNull).
Proof.
  apply (proj1 (proj2 Legacy_matchAsync)); reflexivity.
Defined.
